(** * NutriSnap: a shallow embedding of [app.py]

    [app.py] is a Streamlit script: every user interaction re-runs it from
    top to bottom against the session state.  The embedding follows the
    script section by section:

    - [Py]: the fragment of Python's value universe the script manipulates
      (the values [json.loads] can produce, exceptions, subscripting,
      true division, [round], [min], string formatting);
    - [Base64]: [base64.b64encode] and a strict decoder;
    - [Requests]: the response object and [raise_for_status];
    - [Altair]: the chart description built by [create_donut_chart];
    - [PIL]: the image modes and the modes the JPEG writer accepts;
    - [St]: the widgets a run emits and the run monad (view so far, then
      a value, an exception or [st.stop()]);
    - [App]: the script itself, with the names of the source.

    Binary64 arithmetic is the specification of IEEE 754 of the standard
    library ([SpecFloat], precision 53, maximal exponent 1024). *)

From Stdlib Require Import ZArith String Ascii List Bool Lia.
From Stdlib Require Import Permutation Sorted.
From Stdlib Require Import DecimalString.
From Stdlib Require Import Strings.Byte.
From Stdlib Require Import Floats.SpecFloat.
Import ListNotations.
Local Open Scope string_scope.
Local Open Scope Z_scope.
#[local] Set Warnings "-register-all".

(* ================================================================== *)
(** * Python values, exceptions and primitive operations *)
(* ================================================================== *)

Module Py.

(** Python's [float]: an IEEE 754 binary64 value. *)
Definition float := spec_float.
Definition prec : Z := 53.
Definition emax : Z := 1024.

Definition fdiv : float -> float -> float := SFdiv prec emax.
Definition fmul : float -> float -> float := SFmul prec emax.
Definition fsub : float -> float -> float := SFsub prec emax.
Definition fabs : float -> float := SFabs.
Definition fltb : float -> float -> bool := SFltb.
Definition fleb : float -> float -> bool := SFleb.
Definition feqb : float -> float -> bool := SFeqb.
Definition valid_float (x : float) : bool := valid_binary prec emax x.

(** The literals [0.0] and [1.0]. *)
Definition zero : float := S754_zero false.
Definition one : float := S754_finite false 4503599627370496 (-52).

(** What [json.loads] can return: [None], [bool], [int], [float], [str],
    [list] and [dict] (insertion ordered, string keys). *)
Inductive value : Type :=
| JNull
| JBool (b : bool)
| JInt (z : Z)
| JFloat (f : float)
| JStr (s : string)
| JList (l : list value)
| JDict (d : list (string * value)).

(** The exception classes the script can meet, with the part of
    Python's class hierarchy that [except] clauses look at. *)
Inductive exn_class :=
| Exception_
| LookupError | KeyError | IndexError
| ArithmeticError | ZeroDivisionError | OverflowError
| TypeError | AttributeError
| ValueError | JSONDecodeError
| OSError | FileNotFoundError
| RequestException | HTTPError | ConnectionError | ReadTimeout
| RequestsJSONDecodeError
| StreamlitAPIException | StreamlitValueOutOfRangeError.

Definition exn_class_eqb (a b : exn_class) : bool :=
  match a, b with
  | Exception_, Exception_ | LookupError, LookupError | KeyError, KeyError
  | IndexError, IndexError | ArithmeticError, ArithmeticError
  | ZeroDivisionError, ZeroDivisionError | OverflowError, OverflowError
  | TypeError, TypeError | AttributeError, AttributeError
  | ValueError, ValueError | JSONDecodeError, JSONDecodeError
  | OSError, OSError | FileNotFoundError, FileNotFoundError
  | RequestException, RequestException | HTTPError, HTTPError
  | ConnectionError, ConnectionError | ReadTimeout, ReadTimeout
  | RequestsJSONDecodeError, RequestsJSONDecodeError
  | StreamlitAPIException, StreamlitAPIException
  | StreamlitValueOutOfRangeError, StreamlitValueOutOfRangeError => true
  | _, _ => false
  end.

(** Direct base classes ([requests.RequestException] derives from
    [IOError], an alias of [OSError]; [requests]' JSON error derives
    from both [RequestException] and [json.JSONDecodeError]; the errors
    Streamlit raises for a bad argument derive from
    [StreamlitAPIException]). *)
Definition bases (c : exn_class) : list exn_class :=
  match c with
  | Exception_ => []
  | LookupError | ArithmeticError | TypeError | AttributeError
  | ValueError | OSError | StreamlitAPIException => [Exception_]
  | KeyError | IndexError => [LookupError]
  | ZeroDivisionError | OverflowError => [ArithmeticError]
  | JSONDecodeError => [ValueError]
  | FileNotFoundError | RequestException => [OSError]
  | HTTPError | ConnectionError | ReadTimeout => [RequestException]
  | RequestsJSONDecodeError => [RequestException; JSONDecodeError]
  | StreamlitValueOutOfRangeError => [StreamlitAPIException]
  end.

(** [issubclass c base]; the hierarchy above has depth four. *)
Fixpoint issubclass_fuel (fuel : nat) (c base : exn_class) : bool :=
  exn_class_eqb c base ||
  match fuel with
  | O => false
  | S fuel' => existsb (fun b => issubclass_fuel fuel' b base) (bases c)
  end.

Definition issubclass : exn_class -> exn_class -> bool := issubclass_fuel 4.

(** An exception instance: its class and its argument.  For a
    [KeyError] the argument is the missing key itself, for Streamlit's
    out-of-range error the value that was refused, otherwise the
    message. *)
Record exn := Exn { exn_cls : exn_class; exn_arg : value }.

Definition error (c : exn_class) (msg : string) : exn := Exn c (JStr msg).

(** The one-character string holding a double quote. *)
Definition dquote : string := String (ascii_of_nat 34) EmptyString.

(** Results of fallible primitives. *)
Definition res (A : Type) : Type := (exn + A)%type.

Definition rbind {A B} (r : res A) (k : A -> res B) : res B :=
  match r with
  | inl e => inl e
  | inr a => k a
  end.

(** [type(v).__name__], as it appears in [TypeError] messages. *)
Definition type_name (v : value) : string :=
  match v with
  | JNull => "NoneType"
  | JBool _ => "bool"
  | JInt _ => "int"
  | JFloat _ => "float"
  | JStr _ => "str"
  | JList _ => "list"
  | JDict _ => "dict"
  end.

(** ** Truth value and equality with a string literal *)

Definition is_zero (x : float) : bool :=
  match x with
  | S754_zero _ => true
  | _ => false
  end.

(** [bool(v)]: [None], [False], zero, and empty containers are false. *)
Definition truthy (v : value) : bool :=
  match v with
  | JNull => false
  | JBool b => b
  | JInt z => negb (z =? 0)
  | JFloat f => negb (is_zero f)
  | JStr s => negb (String.eqb s EmptyString)
  | JList l => match l with [] => false | _ => true end
  | JDict d => match d with [] => false | _ => true end
  end.

(** [v != "literal"]. *)
Definition ne_str (v : value) (lit : string) : bool :=
  match v with
  | JStr s => negb (String.eqb s lit)
  | _ => true
  end.

(** ** Dictionaries *)

Fixpoint lookup {A} (k : string) (d : list (string * A)) : option A :=
  match d with
  | [] => None
  | (k', v) :: d' => if String.eqb k k' then Some v else lookup k d'
  end.

Fixpoint remove_key {A} (k : string) (d : list (string * A)) : list (string * A) :=
  match d with
  | [] => []
  | (k', v) :: d' =>
      if String.eqb k k' then remove_key k d' else (k', v) :: remove_key k d'
  end.

(** [d[k] = v] on a dict: the binding is replaced in place, or appended. *)
Fixpoint update {A} (k : string) (v : A) (d : list (string * A)) : list (string * A) :=
  match d with
  | [] => [(k, v)]
  | (k', v') :: d' =>
      if String.eqb k k' then (k, v) :: d' else (k', v') :: update k v d'
  end.

(** ** Subscripting *)

(** [obj["key"]] with a string literal as key. *)
Definition getitem (obj : value) (key : string) : res value :=
  match obj with
  | JDict d =>
      match lookup key d with
      | Some v => inr v
      | None => inl (Exn KeyError (JStr key))
      end
  | JList _ => inl (error TypeError "list indices must be integers or slices, not str")
  | JStr _ => inl (error TypeError "string indices must be integers, not 'str'")
  | _ => inl (error TypeError ("'" ++ type_name obj ++ "' object is not subscriptable"))
  end.

(** [obj[0]]. *)
Definition getitem0 (obj : value) : res value :=
  match obj with
  | JList l =>
      match l with
      | x :: _ => inr x
      | [] => inl (error IndexError "list index out of range")
      end
  | JStr s =>
      match s with
      | String c _ => inr (JStr (String c EmptyString))
      | EmptyString => inl (error IndexError "string index out of range")
      end
  | JDict _ => inl (Exn KeyError (JInt 0))
  | _ => inl (error TypeError ("'" ++ type_name obj ++ "' object is not subscriptable"))
  end.

(** [obj.get("key", default)]: only dicts have the method. *)
Definition get (obj : value) (key : string) (default : value) : res value :=
  match obj with
  | JDict d =>
      match lookup key d with
      | Some v => inr v
      | None => inr default
      end
  | _ => inl (error AttributeError
                ("'" ++ type_name obj ++ "' object has no attribute 'get'"))
  end.

(** [[x] + obj]: list concatenation needs a list on the right. *)
Definition list_concat (l : list value) (obj : value) : res (list value) :=
  match obj with
  | JList l' => inr (l ++ l')%list
  | _ => inl (error TypeError
                ("can only concatenate list (not " ++ dquote ++ type_name obj ++ dquote ++ ") to list"))
  end.

Fixpoint chars (s : string) : list value :=
  match s with
  | EmptyString => []
  | String c s' => JStr (String c EmptyString) :: chars s'
  end.

(** [for x in obj]: the items of a list, the characters of a string,
    the keys of a dict. *)
Definition iter (obj : value) : res (list value) :=
  match obj with
  | JList l => inr l
  | JStr s => inr (chars s)
  | JDict d => inr (map (fun kv => JStr (fst kv)) d)
  | _ => inl (error TypeError ("'" ++ type_name obj ++ "' object is not iterable"))
  end.

(** [enumerate(l, start)]. *)
Fixpoint enumerate {A} (start : Z) (l : list A) : list (Z * A) :=
  match l with
  | [] => []
  | x :: l' => (start, x) :: enumerate (start + 1) l'
  end.

(** ** Numbers *)

(** A number as Python sees it: [bool] is a subclass of [int]. *)
Inductive num :=
| NInt (z : Z)
| NFloat (f : float).

Definition as_num (v : value) : option num :=
  match v with
  | JBool b => Some (NInt (if b then 1 else 0))
  | JInt z => Some (NInt z)
  | JFloat f => Some (NFloat f)
  | _ => None
  end.

Definition of_num (n : num) : value :=
  match n with
  | NInt z => JInt z
  | NFloat f => JFloat f
  end.

(** An integer as an unrounded binary float with exponent 0. *)
Definition raw_of_int (z : Z) : float :=
  match z with
  | Z0 => S754_zero false
  | Zpos p => S754_finite false p 0
  | Zneg p => S754_finite true p 0
  end.

Definition is_infinity (x : float) : bool :=
  match x with
  | S754_infinity _ => true
  | _ => false
  end.

(** [float(z)]: the nearest double, ties to even; an integer beyond the
    range of doubles raises [OverflowError]. *)
Definition float_of_int (z : Z) : res float :=
  let x := binary_normalize prec emax z 0 false in
  if is_infinity x
  then inl (error OverflowError "int too large to convert to float")
  else inr x.

(** [a / b] on two [int]s: the correctly rounded quotient. *)
Definition int_truediv (a b : Z) : res float :=
  if b =? 0 then inl (error ZeroDivisionError "division by zero")
  else
    let x := fdiv (raw_of_int a) (raw_of_int b) in
    if is_infinity x
    then inl (error OverflowError "integer division result too large for a float")
    else inr x.

(** [x / y] on two [float]s: IEEE division, except that a zero divisor
    raises. *)
Definition float_truediv (x y : float) : res float :=
  if is_zero y then inl (error ZeroDivisionError "float division by zero")
  else inr (fdiv x y).

Definition to_float (n : num) : res float :=
  match n with
  | NInt z => float_of_int z
  | NFloat f => inr f
  end.

(** [a / b] on numbers. *)
Definition num_truediv (a b : num) : res float :=
  match a, b with
  | NInt x, NInt y => int_truediv x y
  | _, _ =>
      rbind (to_float a) (fun x =>
      rbind (to_float b) (fun y =>
      float_truediv x y))
  end.

(** [a / b] on arbitrary values. *)
Definition truediv (a b : value) : res float :=
  match as_num a, as_num b with
  | Some x, Some y => num_truediv x y
  | _, _ => inl (error TypeError
                   ("unsupported operand type(s) for /: '" ++ type_name a
                      ++ "' and '" ++ type_name b ++ "'"))
  end.

(** [x * n] for a [float] and an [int] literal. *)
Definition fmul_int (x : float) (n : Z) : res float :=
  rbind (float_of_int n) (fun y => inr (fmul x y)).

(** [round(x)] with one argument: the nearest integer, ties to even. *)
Definition round_half_even (m : positive) (e : Z) : Z :=
  match e with
  | Z0 => Zpos m
  | Zpos _ => Zpos m * 2 ^ e
  | Zneg _ =>
      let d := 2 ^ (- e) in
      let q := Zpos m / d in
      let r := Zpos m mod d in
      match 2 * r ?= d with
      | Lt => q
      | Gt => q + 1
      | Eq => if Z.even q then q else q + 1
      end
  end.

Definition round (x : float) : res Z :=
  match x with
  | S754_nan => inl (error ValueError "cannot convert float NaN to integer")
  | S754_infinity _ => inl (error OverflowError "cannot convert float infinity to integer")
  | S754_zero _ => inr 0
  | S754_finite s m e =>
      let n := round_half_even m e in
      inr (if s then - n else n)
  end.

(** [min(x, y)] on floats: [y] if [y < x], else [x]. *)
Definition fmin (x y : float) : float :=
  if fltb y x then y else x.

(** [math.isclose(a, b, rel_tol=1e-09, abs_tol=1e-09)]: equal, or
    finite and no further apart than the larger of the two tolerances. *)
Definition tolerance : float := S754_finite false 4835703278458517 (-82).

Definition isclose (a b : float) : bool :=
  if feqb a b then true
  else if is_infinity a || is_infinity b then false
  else
    let diff := fabs (fsub b a) in
    fleb diff (fabs (fmul tolerance b))
    || fleb diff (fabs (fmul tolerance a))
    || fleb diff tolerance.

(** Exact comparison of a number with an [int], as [<], [>] do. *)
Definition float_cmp_int (x : float) (g : Z) : option comparison :=
  match x with
  | S754_nan => None
  | S754_infinity s => Some (if s then Lt else Gt)
  | S754_zero _ => Some (0 ?= g)
  | S754_finite s m e =>
      let n := if s then Zneg m else Zpos m in
      Some (match e with
            | Zneg _ => n ?= g * 2 ^ (- e)
            | _ => n * 2 ^ e ?= g
            end)
  end.

Definition num_cmp_int (v : num) (g : Z) : option comparison :=
  match v with
  | NInt z => Some (z ?= g)
  | NFloat f => float_cmp_int f g
  end.

(** [v > g] and [v <= g]. *)
Definition gt_int (v : num) (g : Z) : bool :=
  match num_cmp_int v g with
  | Some Gt => true
  | _ => false
  end.

Definition le_int (v : num) (g : Z) : bool :=
  match num_cmp_int v g with
  | Some (Lt | Eq) => true
  | _ => false
  end.



(** ** Conversion to text *)

Definition string_of_Z (z : Z) : string :=
  NilZero.string_of_int (Z.to_int z).

Fixpoint join (sep : string) (l : list string) : string :=
  match l with
  | [] => EmptyString
  | [x] => x
  | x :: l' => x ++ sep ++ join sep l'
  end.

Section Repr.
(** [repr] of a [float] (the shortest decimal that reads back as the
    same double) and of a [str] (quoting and escaping) are the
    interpreter's; they are taken as given. *)
Variable float_repr : float -> string.
Variable str_repr : string -> string.

Fixpoint repr (v : value) : string :=
  match v with
  | JNull => "None"
  | JBool b => if b then "True" else "False"
  | JInt z => string_of_Z z
  | JFloat f => float_repr f
  | JStr s => str_repr s
  | JList l => "[" ++ join ", " (map repr l) ++ "]"
  | JDict d =>
      "{" ++ join ", " (map (fun kv => str_repr (fst kv) ++ ": " ++ repr (snd kv)) d)
          ++ "}"
  end.

(** [str(v)], which is what an f-string field [{v}] inserts. *)
Definition str (v : value) : string :=
  match v with
  | JStr s => s
  | _ => repr v
  end.

(** [str(e)] for an exception: [KeyError] shows the [repr] of its
    key, the others their message. *)
Definition exn_str (e : exn) : string :=
  match exn_cls e with
  | KeyError => repr (exn_arg e)
  | _ => str (exn_arg e)
  end.
End Repr.

End Py.

(* ================================================================== *)
(** * [base64]: the standard alphabet with padding *)
(* ================================================================== *)

Module Base64.
Local Open Scope N_scope.

Definition alphabet : string :=
  "ABCDEFGHIJKLMNOPQRSTUVWXYZabcdefghijklmnopqrstuvwxyz0123456789+/".

Definition pad : ascii := "="%char.

(** The character of a six-bit group. *)
Definition digit (i : N) : ascii :=
  match String.get (N.to_nat i) alphabet with
  | Some c => c
  | None => pad
  end.




(** [base64.b64encode(bs).decode()]: three bytes become four
    characters; one or two trailing bytes are zero-extended and the
    group is completed with [=]. *)
Fixpoint b64encode (bs : list byte) : string :=
  match bs with
  | [] => EmptyString
  | [a] =>
      let n := Byte.to_N a * 16 in
      String (digit (n / 64)) (String (digit (n mod 64))
        (String pad (String pad EmptyString)))
  | [a; b] =>
      let n := (Byte.to_N a * 256 + Byte.to_N b) * 4 in
      String (digit (n / 4096)) (String (digit (n / 64 mod 64))
        (String (digit (n mod 64)) (String pad EmptyString)))
  | a :: b :: c :: rest =>
      let n := (Byte.to_N a * 256 + Byte.to_N b) * 256 + Byte.to_N c in
      String (digit (n / 262144)) (String (digit (n / 4096 mod 64))
        (String (digit (n / 64 mod 64)) (String (digit (n mod 64))
          (b64encode rest))))
  end.


End Base64.

(* ================================================================== *)
(** * [requests]: responses and transport failures *)
(* ================================================================== *)

Module Requests.
Import Py.

Record Request := {
  req_url : string;
  req_headers : list (string * string);
  req_json : value;
  req_timeout : Z
}.

Record Response := {
  status_code : Z;
  reason : string;
  url : string;
  text : string
}.

(** What [requests.post] does: it returns a response, whatever its
    status, or raises for a connection failure or a timeout. *)
Inductive post_outcome :=
| PostConnectionError (msg : string)
| PostTimeout (msg : string)
| PostResponse (r : Response).

(** [Response.raise_for_status]: an [HTTPError] for 4xx and 5xx, whose
    message starts with the status code. *)
Definition raise_for_status (r : Response) : res unit :=
  if (400 <=? status_code r) && (status_code r <? 500) then
    inl (error HTTPError
           (string_of_Z (status_code r) ++ " Client Error: " ++ reason r
              ++ " for url: " ++ url r))
  else if (500 <=? status_code r) && (status_code r <? 600) then
    inl (error HTTPError
           (string_of_Z (status_code r) ++ " Server Error: " ++ reason r
              ++ " for url: " ++ url r))
  else inr tt.

Section Json.
(** The JSON decoder: the parsed value, or the message of the decode
    error. *)
Variable json_decode : string -> string + value.

(** [Response.json()]. *)
Definition json (r : Response) : res value :=
  match json_decode (text r) with
  | inr v => inr v
  | inl msg => inl (error RequestsJSONDecodeError msg)
  end.

(** [json.loads(s)]. *)
Definition loads (s : value) : res value :=
  match s with
  | JStr t =>
      match json_decode t with
      | inr v => inr v
      | inl msg => inl (error JSONDecodeError msg)
      end
  | _ => inl (error TypeError
                ("the JSON object must be str, bytes or bytearray, not "
                   ++ type_name s))
  end.
End Json.

End Requests.

(* ================================================================== *)
(** * [altair]: the description of a layered chart *)
(* ================================================================== *)

Module Altair.

Inductive mark :=
| mark_arc (outerRadius innerRadius : Z)
| mark_text (radius : Z).

Inductive sort_order := ascending | descending.

Inductive color_channel :=
| Color (field : string) (domain range : list string)
| color_value (c : string).

Record layer := {
  layer_mark : mark;
  theta : string * bool;          (* field, stack *)
  color : color_channel;
  order : string * sort_order;    (* field, sort *)
  tooltip : list string;
  text : option string
}.



Section Chart.
Context {V : Type}.

(** The two-column data frame behind the chart. *)
Record DataFrame := {
  Category : list string;
  Value : list V
}.

Record chart := {
  data : DataFrame;
  layers : list layer
}.


(** The order in which a stacked mark lays out the rows: the order
    channel sorts them by its field, ties keeping frame order.
    [geb x y] is [x >= y] on the values. *)
Variable geb : V -> V -> bool.

Definition before (o : sort_order) (x y : V) : bool :=
  match o with
  | descending => geb x y
  | ascending => geb y x
  end.



(** [in_order o a b]: row [a] may come right before row [b]. *)
Definition in_order (o : sort_order) (a b : string * V) : Prop :=
  before o (snd a) (snd b) = true.


End Chart.

Arguments DataFrame : clear implicits.
Arguments chart : clear implicits.

End Altair.

(* ================================================================== *)
(** * [streamlit]: the widgets of a run and the run monad *)
(* ================================================================== *)

Module St.
Import Py.
Local Open Scope list_scope.

(** One constructor per Streamlit call of the script, with the
    arguments the script passes.  Layout containers ([st.sidebar],
    [st.columns], [st.expander], [st.container], the tab bodies) only
    place widgets and are not recorded. *)
Inductive widget :=
| set_page_config (page_title page_icon layout initial_sidebar_state : string)
| markdown (body : string)
| title (body : string)
| header (body : string)
| subheader (body : value)
| caption (body : string)
| info (body : string)
| error (body : string)
| warning (body : value)
| success (body : value)
| write (body : string)
| number_input (label : string) (value : Z)
| radio (label : string) (options : list string)
| camera_input (label : string)
| file_uploader (label : string) (type : list string)
| image (caption : string)
| button (label : string)
| status (label : string)
| status_update (label state : string)
| divider
| tabs (labels : list string)
| metric (label value : string) (delta : option string) (border : bool)
| altair_chart (c : Altair.chart value)
| progress (v : float).

(** How a piece of the script can end other than by falling through:
    an exception, or [st.stop()]. *)
Inductive signal :=
| Raised (e : exn)
| Stopped.

(** A piece of script: from the session state to the new session
    state, the widgets emitted, and a value or a signal.  State changes
    and widgets made before a signal stay. *)
Definition M (S A : Type) : Type := S -> S * list widget * (signal + A).

Section Monad.
Context {S : Type}.

Definition ret {A} (a : A) : M S A := fun s => (s, [], inr a).

Definition bind {A B} (m : M S A) (k : A -> M S B) : M S B :=
  fun s =>
    match m s with
    | (s1, w1, inr a) =>
        match k a s1 with
        | (s2, w2, r) => (s2, w1 ++ w2, r)
        end
    | (s1, w1, inl sig) => (s1, w1, inl sig)
    end.

Definition emit (w : widget) : M S unit := fun s => (s, [w], inr tt).

Definition raise {A} (e : exn) : M S A := fun s => (s, [], inl (Raised e)).

(** [st.stop()]. *)
Definition stop {A} : M S A := fun s => (s, [], inl Stopped).

Definition lift {A} (r : res A) : M S A :=
  match r with
  | inl e => raise e
  | inr a => ret a
  end.

Definition get_state : M S S := fun s => (s, [], inr s).
Definition put_state (s' : S) : M S unit := fun _ => (s', [], inr tt).

(** [try: body  except cls as e: handler e]. *)
Definition try_except {A} (cls : exn_class) (body : M S A) (handler : exn -> M S A)
  : M S A :=
  fun s =>
    match body s with
    | (s1, w1, inl (Raised e)) =>
        if issubclass (exn_cls e) cls then
          match handler e s1 with
          | (s2, w2, r) => (s2, w1 ++ w2, r)
          end
        else (s1, w1, inl (Raised e))
    | other => other
    end.

(** [for x in l: body x]. *)
Fixpoint for_each {A} (l : list A) (body : A -> M S unit) : M S unit :=
  match l with
  | [] => ret tt
  | x :: l' => bind (body x) (fun _ => for_each l' body)
  end.
End Monad.

(** [st.progress(value)] with a [float]: Streamlit accepts a value
    between 0.0 and 1.0, or one that [math.isclose] puts at one of the
    two bounds, and raises for any other, NaN included. *)
Definition check_float_between (value : float) : bool :=
  (fleb zero value && fleb value one) || isclose value zero || isclose value one.

Definition st_progress {S} (value : float) : M S unit :=
  if check_float_between value then emit (progress value)
  else raise (Exn StreamlitValueOutOfRangeError (JFloat value)).

(** What the browser shows after a run: the widgets emitted and, when
    the run ended with an exception nobody caught, the box in which
    Streamlit displays that exception. *)
Inductive element :=
| Widget (w : widget)
| ExceptionBox (e : exn).

Definition page {S A} (run : S * list widget * (signal + A)) : list element :=
  match run with
  | (_, ws, inl (Raised e)) => map Widget ws ++ [ExceptionBox e]
  | (_, ws, _) => map Widget ws
  end.

(** An element that reports an error to the user. *)
Definition is_error_element (el : element) : bool :=
  match el with
  | Widget (error _) => true
  | ExceptionBox _ => true
  | _ => false
  end.

(** An inline error message, [st.error]. *)
Definition is_st_error (w : widget) : bool :=
  match w with
  | error _ => true
  | _ => false
  end.

Declare Scope run_scope.
Delimit Scope run_scope with run.
Notation "x <- m ;; k" := (bind m (fun x => k))
  (at level 61, m at next level, right associativity) : run_scope.
Notation "m ;; k" := (bind m (fun _ => k))
  (at level 61, right associativity) : run_scope.

End St.

(* ================================================================== *)
(** * [PIL]: image modes and the JPEG writer's table *)
(* ================================================================== *)

Module PIL.

(** The modes an opened image can have. *)
Inductive mode :=
| mode_1 | mode_L | mode_P | mode_RGB | mode_RGBA | mode_CMYK | mode_YCbCr
| mode_LAB | mode_HSV | mode_I | mode_F | mode_LA | mode_PA | mode_RGBX
| mode_RGBa | mode_La | mode_I16.

Definition mode_name (m : mode) : string :=
  match m with
  | mode_1 => "1" | mode_L => "L" | mode_P => "P" | mode_RGB => "RGB"
  | mode_RGBA => "RGBA" | mode_CMYK => "CMYK" | mode_YCbCr => "YCbCr"
  | mode_LAB => "LAB" | mode_HSV => "HSV" | mode_I => "I" | mode_F => "F"
  | mode_LA => "LA" | mode_PA => "PA" | mode_RGBX => "RGBX"
  | mode_RGBa => "RGBa" | mode_La => "La" | mode_I16 => "I;16"
  end.

(** [JpegImagePlugin.RAWMODE]: the modes the JPEG writer accepts, each
    with the raw mode it is written in. *)
Definition RAWMODE (m : mode) : option string :=
  match m with
  | mode_1 => Some "L"
  | mode_L => Some "L"
  | mode_RGB => Some "RGB"
  | mode_RGBX => Some "RGB"
  | mode_CMYK => Some "CMYK;I"
  | mode_YCbCr => Some "YCbCr"
  | _ => None
  end.

End PIL.

(* ================================================================== *)
(** * [app.py] *)
(* ================================================================== *)

Module App.
Import Py Requests Altair St.
Local Open Scope run_scope.

Definition newline : string := String (ascii_of_nat 10) EmptyString.

(** [q s] is [s] between double quotes. *)
Definition q (s : string) : string := dquote ++ s ++ dquote.

Definition lines (l : list string) : string := join newline l.

(** ** Session state *)

(** [st.session_state.daily_goal]: the four targets.  They are the
    [int]s returned by [st.number_input] for an [int] default. *)
Record DailyGoal := {
  calories : Z;
  proteinG : Z;
  carbsG : Z;
  fatG : Z
}.

(** [st.session_state]; [None] is a key that has not been set yet. *)
Record session_state := {
  analysis : option value;
  daily_goal : option DailyGoal
}.

Definition set_analysis (v : value) : M session_state unit :=
  fun s => ({| analysis := Some v; daily_goal := daily_goal s |}, [], inr tt).

Definition set_daily_goal (g : DailyGoal) : M session_state unit :=
  fun s => ({| analysis := analysis s; daily_goal := Some g |}, [], inr tt).

(** Reading an attribute of the session state that is not set. *)
Definition get_analysis : M session_state value :=
  s <- get_state ;;
  match analysis s with
  | Some v => ret v
  | None => raise (Py.error AttributeError "st.session_state has no attribute 'analysis'")
  end.

Definition get_daily_goal : M session_state DailyGoal :=
  s <- get_state ;;
  match daily_goal s with
  | Some g => ret g
  | None => raise (Py.error AttributeError "st.session_state has no attribute 'daily_goal'")
  end.

(** ** Configuration *)

(** [st.secrets]: the secrets file may be missing, and when it exists
    it may lack a key.  Subscripting raises [FileNotFoundError] in the
    first case and [KeyError] (carrying a message) in the second. *)
Inductive Secrets :=
| NoSecretsFile
| SecretsFile (entries : list (string * value)).

(** The text of the [KeyError] for a key the file lacks, in the
    wording of recent releases of Streamlit. *)
Definition missing_key_message (key : string) : string :=
  "st.secrets has no key " ++ q key ++ ". Did you forget to add it to secrets.toml, "
    ++ "mount it to secret directory, or the app settings on Streamlit Cloud? "
    ++ "More info: https://docs.streamlit.io/deploy/streamlit-community-cloud/"
    ++ "deploy-your-app/secrets-management".

Definition secrets_getitem (s : Secrets) (key : string) : res value :=
  match s with
  | NoSecretsFile => inl (Py.error FileNotFoundError "No secrets found.")
  | SecretsFile entries =>
      match lookup key entries with
      | Some v => inr v
      | None => inl (Py.error KeyError (missing_key_message key))
      end
  end.

Definition page_config : widget :=
  set_page_config "NutriSnap AI" "🍽️" "wide" "expanded".

(** [try: API_KEY = st.secrets[...]  except FileNotFoundError: ...] *)
Definition load_secrets (secrets : Secrets) : M session_state value :=
  try_except FileNotFoundError
    (lift (secrets_getitem secrets "GEMINI_API_KEY"))
    (fun _ =>
       emit (St.error "Secrets file not found. Please set up your .streamlit/secrets.toml") ;;
       stop).

Definition MODEL_URL : string :=
  "https://generativelanguage.googleapis.com/v1beta/models/"
  ++ "gemini-2.5-flash-preview-09-2025:generateContent".

Definition custom_css : string :=
  lines [
    EmptyString;
    "<style>";
    "    .main {";
    "        background-color: #f8f9fa;";
    "    }";
    "    .stButton>button {";
    "        width: 100%;";
    "        border-radius: 8px;";
    "        height: 3em;";
    "        background-color: #FF4B4B; ";
    "        color: white;";
    "        font-weight: bold;";
    "    }";
    "    .metric-card {";
    "        background-color: #ffffff;";
    "        border: 1px solid #e0e0e0;";
    "        border-radius: 10px;";
    "        padding: 15px;";
    "        box-shadow: 0 2px 4px rgba(0,0,0,0.05);";
    "        text-align: center;";
    "    }";
    "    h1 {";
    "        color: #1f1f1f; ";
    "    }";
    "</style>";
    EmptyString ].

(** The two [if ... not in st.session_state] initialisations. *)
Definition default_goal : DailyGoal :=
  {| calories := 2000; proteinG := 120; carbsG := 250; fatG := 65 |}.

Definition init_session_state : M session_state unit :=
  s <- get_state ;;
  (match analysis s with
   | None => set_analysis JNull
   | Some _ => ret tt
   end) ;;
  match daily_goal s with
  | None => set_daily_goal default_goal
  | Some _ => ret tt
  end.

(** ** Helpers *)

(** The arcs. *)
Definition pie : layer :=
  {| layer_mark := mark_arc 100 60;
     theta := ("Value", true);
     color := Color "Category" ["Protein"; "Carbs"; "Fat"]
                    ["#36a2eb"; "#ffcd56"; "#ff6384"];
     order := ("Value", descending);
     tooltip := ["Category"; "Value"];
     text := None |}.

(** The labels (the source's [text]). *)
Definition text_layer : layer :=
  {| layer_mark := mark_text 120;
     theta := ("Value", true);
     color := color_value "black";
     order := ("Value", descending);
     tooltip := [];
     text := Some "Value" |}.

(** [pie + text] over the frame of the three macros. *)
Definition create_donut_chart {V} (protein carbs fat : V) : chart V :=
  {| data := {| Category := ["Protein"; "Carbs"; "Fat"];
                Value := [protein; carbs; fat] |};
     layers := [pie; text_layer] |}.

Definition system_prompt : string :=
  lines [
    EmptyString;
    "    You are NutriSnap AI, an expert food analyst.";
    "    Analyze the image of the meal and return a JSON object STRICTLY following this schema:";
    "    {";
    "      " ++ q "foodName" ++ ": " ++ q "string" ++ ",";
    "      " ++ q "cuisineType" ++ ": " ++ q "string" ++ ",";
    "      " ++ q "calories" ++ ": number,";
    "      " ++ q "macronutrients" ++ ": { " ++ q "proteinG" ++ ": number, "
      ++ q "carbsG" ++ ": number, " ++ q "fatG" ++ ": number },";
    "      " ++ q "insightSummary" ++ ": "
      ++ q "string (short, engaging 1-sentence summary)" ++ ",";
    "      " ++ q "dietaryTags" ++ ": ["
      ++ q "string (e.g. Vegan, Keto, Gluten-Free, High-Protein)" ++ "],";
    "      " ++ q "recipe" ++ ": {";
    "        " ++ q "title" ++ ": " ++ q "string" ++ ",";
    "        " ++ q "ingredients" ++ ": [" ++ q "string (with quantities)" ++ "],";
    "        " ++ q "instructions" ++ ": [" ++ q "string" ++ "]";
    "      },";
    "      " ++ q "allergenAlert" ++ ": {";
    "        " ++ q "riskLevel" ++ ": " ++ q "Low | Medium | High" ++ ",";
    "        " ++ q "detected" ++ ": [" ++ q "string" ++ "],";
    "        " ++ q "advice" ++ ": " ++ q "string";
    "      }";
    "    }";
    "    " ].

Definition payload (image_b64 : string) : value :=
  JDict [
    ("contents", JList [
       JDict [
         ("role", JStr "user");
         ("parts", JList [
            JDict [("text",
                    JStr "Analyze this food photo and return structured nutrition data.")];
            JDict [("inlineData",
                    JDict [("mimeType", JStr "image/jpeg");
                           ("data", JStr image_b64)])] ]) ] ]);
    ("systemInstruction", JDict [("parts", JList [JDict [("text", JStr system_prompt)]])]);
    ("generationConfig", JDict [("responseMimeType", JStr "application/json")]) ].

(** The severity-to-colour dictionary of the alert tab. *)
Definition risk_color : list (string * string) :=
  [("High", "red"); ("Medium", "orange"); ("Low", "green")].

(** [risk_color[key]]: lists and dicts are unhashable, any other
    value that is not a key of the dictionary is a [KeyError]. *)
Definition risk_color_getitem (key : value) : res string :=
  match key with
  | JList _ | JDict _ =>
      inl (Py.error TypeError ("unhashable type: '" ++ type_name key ++ "'"))
  | JStr s =>
      match lookup s risk_color with
      | Some c => inr c
      | None => inl (Exn KeyError key)
      end
  | _ => inl (Exn KeyError key)
  end.

Definition placeholder_html : string :=
  lines [
    EmptyString;
    "            <div style=" ++ q ("text-align: center; padding: 50px; "
      ++ "background: #f0f2f6; border-radius: 10px; color: #666;") ++ ">";
    "                <h3>👈 Snap a photo to begin</h3>";
    "                <p>AI will identify ingredients, calculate macros, and generate a recipe.</p>";
    "            </div>";
    "            " ].

Section Script.
(** What the script takes from its environment: the interpreter's
    [repr] of floats and strings, the JSON decoder, the opened images
    with their mode, Pillow's JPEG encoder for an image in a mode it
    accepts (the bytes, or the message of the [OSError] it raises), the
    network, and the serialisation of a chart's data frame by
    [st.altair_chart] (the exception it raises for a frame it cannot
    convert, an [int] beyond 64 bits for instance). *)
Variable float_repr : float -> string.
Variable str_repr : string -> string.
Variable json_decode : string -> string + value.
Variable Image : Type.
Variable image_mode : Image -> PIL.mode.
Variable jpeg_save : Image -> string + list byte.
Variable post : Request -> post_outcome.
Variable chart_error : chart value -> option exn.

Let str := Py.str float_repr str_repr.
Let exn_str := Py.exn_str float_repr str_repr.

(** [image.save(buffer, format="JPEG")]: the writer refuses a mode
    that is not in its table. *)
Definition image_save (image : Image) : res (list byte) :=
  match PIL.RAWMODE (image_mode image) with
  | None =>
      inl (Py.error OSError
             ("cannot write mode " ++ PIL.mode_name (image_mode image) ++ " as JPEG"))
  | Some _ =>
      match jpeg_save image with
      | inl msg => inl (Py.error OSError msg)
      | inr buffer => inr buffer
      end
  end.

Definition image_to_base64 (image : Image) : res string :=
  rbind (image_save image) (fun buffer =>
  inr (Base64.b64encode buffer)).

Definition requests_post (r : Request) : res Response :=
  match post r with
  | PostConnectionError msg => inl (Py.error ConnectionError msg)
  | PostTimeout msg => inl (Py.error ReadTimeout msg)
  | PostResponse resp => inr resp
  end.

(** [response.json()["candidates"][0]["content"]["parts"][0]["text"]] *)
Definition embedded_text (response : Response) : res value :=
  rbind (Requests.json json_decode response) (fun body =>
  rbind (getitem body "candidates") (fun candidates =>
  rbind (getitem0 candidates) (fun candidate =>
  rbind (getitem candidate "content") (fun content =>
  rbind (getitem content "parts") (fun parts =>
  rbind (getitem0 parts) (fun part =>
  getitem part "text")))))).

Definition gemini_request (API_KEY : value) (image_b64 : string) : Request :=
  {| req_url := MODEL_URL ++ "?key=" ++ str API_KEY;
     req_headers := [("Content-Type", "application/json")];
     req_json := payload image_b64;
     req_timeout := 60 |}.

Definition call_gemini (API_KEY : value) (image_b64 : string) : res value :=
  rbind (requests_post (gemini_request API_KEY image_b64)) (fun response =>
  rbind (raise_for_status response) (fun _ =>
  rbind (embedded_text response) (fun txt =>
  loads json_decode txt))).

(** ** Sidebar *)

(** What the user has typed in the four goal fields in this run;
    [None] leaves the field at the value it was given. *)
Record goal_edits := {
  edit_calories : option Z;
  edit_proteinG : option Z;
  edit_carbsG : option Z;
  edit_fatG : option Z
}.

(** [st.number_input(label, value=v)]. *)
Definition st_number_input (label : string) (v : Z) (edit : option Z)
  : M session_state Z :=
  emit (number_input label v) ;;
  ret (match edit with Some z => z | None => v end).

Definition sidebar (edits : goal_edits) : M session_state unit :=
  emit (header "⚙️ Profile & Goals") ;;
  emit (markdown "Set your daily nutritional targets to see how this meal fits in.") ;;
  g <- get_daily_goal ;;
  c <- st_number_input "Calories (kcal)" (calories g) (edit_calories edits) ;;
  set_daily_goal {| calories := c; proteinG := proteinG g;
                    carbsG := carbsG g; fatG := fatG g |} ;;
  g <- get_daily_goal ;;
  p <- st_number_input "Protein (g)" (proteinG g) (edit_proteinG edits) ;;
  set_daily_goal {| calories := calories g; proteinG := p;
                    carbsG := carbsG g; fatG := fatG g |} ;;
  g <- get_daily_goal ;;
  c <- st_number_input "Carbs (g)" (carbsG g) (edit_carbsG edits) ;;
  set_daily_goal {| calories := calories g; proteinG := proteinG g;
                    carbsG := c; fatG := fatG g |} ;;
  g <- get_daily_goal ;;
  f <- st_number_input "Fat (g)" (fatG g) (edit_fatG edits) ;;
  set_daily_goal {| calories := calories g; proteinG := proteinG g;
                    carbsG := carbsG g; fatG := f |} ;;
  emit (info "💡 **Tip:** Clear photos with good lighting give the best accuracy.").

(** ** Left panel *)

Inductive input_method := Camera | Upload.

Record capture := {
  method : input_method;
  camera_image : option Image;
  uploaded_file : option Image;
  decode_clicked : bool
}.

(** The body of [if st.button("⚡ Decode Nutrition"):]. *)
Definition decode_nutrition (API_KEY : value) (image : Image) : M session_state unit :=
  emit (status "🔍 Analyzing food matrix...") ;;
  try_except Exception_
    (emit (write "Encoding image...") ;;
     img_b64 <- lift (image_to_base64 image) ;;
     emit (write "Consulting AI Chef...") ;;
     result <- lift (call_gemini API_KEY img_b64) ;;
     set_analysis result ;;
     emit (status_update "Analysis Complete!" "complete"))
    (fun e =>
       emit (status_update "Analysis Failed" "error") ;;
       emit (St.error ("Error: " ++ exn_str e))).

Definition left_panel (API_KEY : value) (c : capture) : M session_state unit :=
  emit (markdown "#### 📸 Snap Your Meal") ;;
  emit (radio "Input method" ["Camera"; "Upload"]) ;;
  image <- match method c with
           | Camera =>
               emit (camera_input "Take a photo") ;;
               ret (camera_image c)
           | Upload =>
               emit (file_uploader "Upload image" ["jpg"; "jpeg"; "png"]) ;;
               ret (uploaded_file c)
           end ;;
  match image with
  | Some img =>
      emit (St.image "Ready for analysis") ;;
      emit (button "⚡ Decode Nutrition") ;;
      if decode_clicked c then decode_nutrition API_KEY img else ret tt
  | None => ret tt
  end.

(** ** Right panel *)

(** The header: dish name, badges, one-line summary. *)
Definition header_section (data : value) : M session_state unit :=
  foodName <- lift (getitem data "foodName") ;;
  emit (markdown ("## " ++ str foodName)) ;;
  cuisineType <- lift (getitem data "cuisineType") ;;
  dietaryTags <- lift (Py.get data "dietaryTags" (JList [])) ;;
  tags <- lift (list_concat [cuisineType] dietaryTags) ;;
  emit (markdown (join " " (map (fun tag => "`" ++ str tag ++ "`") tags))) ;;
  insightSummary <- lift (getitem data "insightSummary") ;;
  emit (caption ("📝 " ++ str insightSummary)) ;;
  emit divider.

(** [round((value / goal) * 100)]. *)
Definition percent_of_goal (v : value) (goal : Z) : res Z :=
  rbind (truediv v (JInt goal)) (fun ratio =>
  rbind (fmul_int ratio 100) (fun scaled =>
  round scaled)).

(** [min(value / goal, 1.0)]. *)
Definition progress_value (v : value) (goal : Z) : res float :=
  rbind (truediv v (JInt goal)) (fun ratio =>
  inr (fmin ratio one)).

(** One card of the macro breakdown. *)
Definition macro_card (label key : string) (macros : value) (goal : Z)
  : M session_state unit :=
  shown <- lift (getitem macros key) ;;
  emit (metric label (str shown ++ "g") None true) ;;
  v <- lift (getitem macros key) ;;
  p <- lift (progress_value v goal) ;;
  st_progress p.

(** [st.altair_chart(chart, use_container_width=True)]. *)
Definition st_altair_chart (c : chart value) : M session_state unit :=
  match chart_error c with
  | Some e => raise e
  | None => emit (altair_chart c)
  end.

Definition nutrition_tab (data : value) (goals : DailyGoal) : M session_state unit :=
  shown <- lift (getitem data "calories") ;;
  v <- lift (getitem data "calories") ;;
  pct <- lift (percent_of_goal v (calories goals)) ;;
  emit (metric "Energy" (str shown ++ " kcal")
               (Some (string_of_Z pct ++ "% of Daily Goal")) false) ;;
  macros <- lift (getitem data "macronutrients") ;;
  protein <- lift (getitem macros "proteinG") ;;
  carbs <- lift (getitem macros "carbsG") ;;
  fat <- lift (getitem macros "fatG") ;;
  st_altair_chart (create_donut_chart protein carbs fat) ;;
  emit (markdown "#### Macro Breakdown") ;;
  macro_card "Protein" "proteinG" macros (proteinG goals) ;;
  macro_card "Carbs" "carbsG" macros (carbsG goals) ;;
  macro_card "Fat" "fatG" macros (fatG goals).

Definition recipe_tab (data : value) : M session_state unit :=
  recipe <- lift (getitem data "recipe") ;;
  title <- lift (getitem recipe "title") ;;
  emit (subheader title) ;;
  emit (markdown "**🛒 Ingredients**") ;;
  ingredients <- lift (getitem recipe "ingredients") ;;
  ings <- lift (iter ingredients) ;;
  for_each ings (fun ing => emit (markdown ("- " ++ str ing))) ;;
  emit (markdown "**🍳 Instructions**") ;;
  instructions <- lift (getitem recipe "instructions") ;;
  steps <- lift (iter instructions) ;;
  for_each (enumerate 1 steps) (fun '(idx, step) =>
    emit (markdown ("**" ++ string_of_Z idx ++ ".** " ++ str step))).

Definition alerts_tab (data : value) : M session_state unit :=
  alert <- lift (getitem data "allergenAlert") ;;
  key <- lift (getitem alert "riskLevel") ;;
  colour <- lift (risk_color_getitem key) ;;
  level <- lift (getitem alert "riskLevel") ;;
  emit (markdown ("**Risk Level:** :" ++ colour ++ "[" ++ str level ++ "]")) ;;
  level <- lift (getitem alert "riskLevel") ;;
  (if ne_str level "Low" then
     advice <- lift (getitem alert "advice") ;;
     emit (warning advice)
   else
     advice <- lift (getitem alert "advice") ;;
     emit (success advice)) ;;
  detected <- lift (getitem alert "detected") ;;
  if truthy detected then
    emit (write "Potential Allergens Detected:") ;;
    detected <- lift (getitem alert "detected") ;;
    items <- lift (iter detected) ;;
    for_each items (fun item => emit (markdown ("- 🔴 **" ++ str item ++ "**")))
  else ret tt.

Definition right_panel : M session_state unit :=
  data <- get_analysis ;;
  goals <- get_daily_goal ;;
  if negb (truthy data) then
    emit (markdown placeholder_html)
  else
    header_section data ;;
    emit (tabs ["📊 Nutrition"; "👨‍🍳 Recipe"; "⚠️ Health & Safety"]) ;;
    nutrition_tab data goals ;;
    recipe_tab data ;;
    alerts_tab data.

(** ** The script *)

Record inputs := {
  secrets : Secrets;
  edits : goal_edits;
  captured : capture
}.

Definition script (i : inputs) : M session_state unit :=
  emit page_config ;;
  API_KEY <- load_secrets (secrets i) ;;
  emit (markdown custom_css) ;;
  init_session_state ;;
  sidebar (edits i) ;;
  emit (St.title "🍽️ NutriSnap AI") ;;
  emit (markdown "### Instant Meal Decoding & Nutrition Analysis") ;;
  left_panel API_KEY (captured i) ;;
  right_panel.
End Script.

Arguments Build_capture {Image}.
Arguments method {Image}.
Arguments camera_image {Image}.
Arguments uploaded_file {Image}.
Arguments decode_clicked {Image}.
Arguments Build_inputs {Image}.
Arguments secrets {Image}.
Arguments edits {Image}.
Arguments captured {Image}.
Arguments image_save {Image}.
Arguments image_to_base64 {Image}.
Arguments decode_nutrition float_repr str_repr json_decode {Image}.
Arguments left_panel float_repr str_repr json_decode {Image}.
Arguments script float_repr str_repr json_decode {Image}.

End App.

(* ================================================================== *)
(** * The schema the model is asked to follow *)
(* ================================================================== *)

(** The object described by [system_prompt], as a typed record, and its
    image among the values [json.loads] returns. *)
Module Schema.
Import Py.

Record Macronutrients := {
  proteinG : num;
  carbsG : num;
  fatG : num
}.

Record Recipe := {
  title : string;
  ingredients : list string;
  instructions : list string
}.

Inductive RiskLevel := Low | Medium | High.

Record AllergenAlert := {
  riskLevel : RiskLevel;
  detected : list string;
  advice : string
}.

Record AnalysisResult := {
  foodName : string;
  cuisineType : string;
  calories : num;
  macronutrients : Macronutrients;
  insightSummary : string;
  dietaryTags : list string;
  recipe : Recipe;
  allergenAlert : AllergenAlert
}.

Definition risk_name (r : RiskLevel) : string :=
  match r with
  | Low => "Low"
  | Medium => "Medium"
  | High => "High"
  end.

Definition strs (l : list string) : value := JList (map JStr l).

Definition macros_to_json (m : Macronutrients) : value :=
  JDict [("proteinG", of_num (proteinG m));
         ("carbsG", of_num (carbsG m));
         ("fatG", of_num (fatG m))].

Definition recipe_to_json (r : Recipe) : value :=
  JDict [("title", JStr (title r));
         ("ingredients", strs (ingredients r));
         ("instructions", strs (instructions r))].

(** The object with [risk] in place of the risk level: the decoder
    hands over whatever the model wrote there. *)
Definition alert_with_risk (risk : value) (a : AllergenAlert) : value :=
  JDict [("riskLevel", risk);
         ("detected", strs (detected a));
         ("advice", JStr (advice a))].

Definition fields_with_risk (risk : value) (r : AnalysisResult) : list (string * value) :=
  [("foodName", JStr (foodName r));
   ("cuisineType", JStr (cuisineType r));
   ("calories", of_num (calories r));
   ("macronutrients", macros_to_json (macronutrients r));
   ("insightSummary", JStr (insightSummary r));
   ("dietaryTags", strs (dietaryTags r));
   ("recipe", recipe_to_json (recipe r));
   ("allergenAlert", alert_with_risk risk (allergenAlert r))].

Definition risk_to_json (r : AnalysisResult) : value :=
  JStr (risk_name (riskLevel (allergenAlert r))).

Definition fields (r : AnalysisResult) : list (string * value) :=
  fields_with_risk (risk_to_json r) r.

Definition to_json (r : AnalysisResult) : value := JDict (fields r).

(** A result in which the key [k] is missing. *)
Definition without (k : string) (r : AnalysisResult) : value :=
  JDict (remove_key k (fields r)).

(** The top-level keys of the schema. *)
Definition keys : list string :=
  ["foodName"; "cuisineType"; "calories"; "macronutrients"; "insightSummary";
   "dietaryTags"; "recipe"; "allergenAlert"].

Definition drop_key (k : string) (v : value) : value :=
  match v with
  | JDict d => JDict (remove_key k d)
  | _ => v
  end.

Fixpoint adjust (k : string) (f : value -> value) (d : list (string * value))
  : list (string * value) :=
  match d with
  | [] => []
  | (k', v) :: d' =>
      if String.eqb k k' then (k', f v) :: d' else (k', v) :: adjust k f d'
  end.

(** A result in which the key [k] of the object under [parent] is
    missing. *)
Definition without_nested (parent k : string) (r : AnalysisResult) : value :=
  JDict (adjust parent (drop_key k) (fields r)).

(** The keys of the three nested objects, each with its parent. *)
Definition nested_keys : list (string * string) :=
  [("macronutrients", "proteinG"); ("macronutrients", "carbsG");
   ("macronutrients", "fatG");
   ("recipe", "title"); ("recipe", "ingredients"); ("recipe", "instructions");
   ("allergenAlert", "riskLevel"); ("allergenAlert", "detected");
   ("allergenAlert", "advice")].

End Schema.

(* ================================================================== *)
(** * What a run is expected to show *)
(* ================================================================== *)

(** The views against which the script is checked, written in terms of
    the typed result. *)
Module View.
Import Py St.

(** The outcome of a block of the script: what it emitted and how it
    ended. *)
Definition outcome : Type := (list widget * (signal + unit))%type.

(** Sequencing of outcomes: a signal cuts the run short. *)
Definition and_then (a b : outcome) : outcome :=
  match snd a with
  | inr _ => ((fst a ++ fst b)%list, snd b)
  | inl _ => a
  end.

Definition panel_state (data : value) (g : App.DailyGoal) : App.session_state :=
  {| App.analysis := Some data; App.daily_goal := Some g |}.

(** ** Header *)

Definition badge (tag : string) : string := "`" ++ tag ++ "`".

Definition header_view (fn ct : string) (tags : list string) (ins : string) : list widget :=
  [markdown ("## " ++ fn);
   markdown (join " " (map badge (ct :: tags)));
   caption ("📝 " ++ ins);
   divider].

Definition tab_bar : widget :=
  tabs ["📊 Nutrition"; "👨‍🍳 Recipe"; "⚠️ Health & Safety"].

(** ** Recipe *)

Definition ingredient_line (ing : string) : widget := markdown ("- " ++ ing).

Definition instruction_line (numbered : Z * string) : widget :=
  markdown ("**" ++ string_of_Z (fst numbered) ++ ".** " ++ snd numbered).

Definition recipe_view (r : Schema.Recipe) : list widget :=
  (subheader (JStr (Schema.title r))
     :: markdown "**🛒 Ingredients**"
     :: map ingredient_line (Schema.ingredients r)
     ++ markdown "**🍳 Instructions**"
     :: map instruction_line (enumerate 1 (Schema.instructions r)))%list.

(** ** Health and safety *)

(** The severity-to-colour mapping. *)
Definition severity_color (r : Schema.RiskLevel) : string :=
  match r with
  | Schema.High => "red"
  | Schema.Medium => "orange"
  | Schema.Low => "green"
  end.

Definition risk_marker (r : Schema.RiskLevel) : widget :=
  markdown ("**Risk Level:** :" ++ severity_color r ++ "[" ++ Schema.risk_name r ++ "]").

(** The advice: a success box for a low risk, a warning otherwise. *)
Definition advice_widget (a : Schema.AllergenAlert) : widget :=
  match Schema.riskLevel a with
  | Schema.Low => success (JStr (Schema.advice a))
  | _ => warning (JStr (Schema.advice a))
  end.

Definition detected_entry (item : string) : widget :=
  markdown ("- 🔴 **" ++ item ++ "**").

Definition detected_entries (items : list string) : list widget :=
  match items with
  | [] => []
  | _ => write "Potential Allergens Detected:" :: map detected_entry items
  end.

Definition alerts_view (a : Schema.AllergenAlert) : list widget :=
  risk_marker (Schema.riskLevel a) :: advice_widget a :: detected_entries (Schema.detected a).

(** The three risk levels of the schema, as values. *)
Definition valid_risk (v : value) : Prop :=
  v = JStr "High" \/ v = JStr "Medium" \/ v = JStr "Low".

(** The exception of [risk_color[v]] for a value that is not a key. *)
Definition risk_lookup_error (v : value) : exn :=
  match v with
  | JList _ | JDict _ => Py.error TypeError ("unhashable type: '" ++ type_name v ++ "'")
  | _ => Exn KeyError v
  end.

(** ** Rounding and comparing numbers *)

(** The float [m * 2^e] as a fraction of integers. *)
Definition numerator (m : positive) (e : Z) : Z := Zpos m * 2 ^ Z.max e 0.
Definition denominator (e : Z) : Z := 2 ^ Z.max (- e) 0.

(** [n] is the integer nearest to [m * 2^e]; half-way between two
    integers it is the even one. *)
Definition nearest_even (m : positive) (e : Z) (n : Z) : Prop :=
  2 * Z.abs (numerator m e - n * denominator e) <= denominator e
  /\ (2 * Z.abs (numerator m e - n * denominator e) = denominator e ->
      Z.even n = true).

(** [n] is [x] rounded to the nearest integer, ties to even; a NaN and
    the infinities round to nothing. *)
Definition rounds_to (x : float) (n : Z) : Prop :=
  match x with
  | S754_zero _ => n = 0
  | S754_finite s m e => nearest_even m e (if s then - n else n)
  | _ => False
  end.

(** The literal [100], as the float it is multiplied as. *)
Definition hundred : float := S754_finite false 7036874417766400 (-46).

(** [pct] is the quotient of [v] by [goal], times 100, rounded to the
    nearest integer: the percentage of the goal. *)
Definition percentage (v : value) (goal : Z) (pct : Z) : Prop :=
  exists ratio,
    truediv v (JInt goal) = inr ratio /\ rounds_to (fmul ratio hundred) pct.

(** [min(ratio, 1.0)] spelled out. *)
Definition clamp (ratio : float) : float :=
  if fltb one ratio then one else ratio.

(** [p] is the quotient of [v] by [goal], cut at 1.0. *)
Definition clamped_ratio (v : value) (goal : Z) (p : float) : Prop :=
  exists ratio, truediv v (JInt goal) = inr ratio /\ p = clamp ratio.



(** ** Nutrition *)

Definition has_zero_goal (g : App.DailyGoal) : Prop :=
  App.calories g = 0 \/ App.proteinG g = 0 \/ App.carbsG g = 0 \/ App.fatG g = 0.

Definition metric_delta (w : widget) : option string :=
  match w with
  | metric _ _ delta _ => delta
  | _ => None
  end.

Definition shows_no_delta (w : widget) : bool :=
  match metric_delta w with
  | None => true
  | Some _ => false
  end.

Definition is_metric (w : widget) : bool :=
  match w with
  | metric _ _ _ _ => true
  | _ => false
  end.

(** The metrics a run has shown. *)
Definition metrics (run : App.session_state * list widget * (signal + unit))
  : list widget :=
  filter is_metric (snd (fst run)).

Section Numbers.
Variable float_repr : float -> string.
Variable str_repr : string -> string.
Variable chart_error : Altair.chart value -> option exn.

Definition num_str (n : num) : string := Py.str float_repr str_repr (of_num n).

Definition energy_metric (cal : num) (pct : Z) : widget :=
  metric "Energy" (num_str cal ++ " kcal") (Some (string_of_Z pct ++ "% of Daily Goal")) false.

Definition macro_metric (label : string) (v : num) : widget :=
  metric label (num_str v ++ "g") None true.

Definition donut (m : Schema.Macronutrients) : Altair.chart value :=
  App.create_donut_chart (of_num (Schema.proteinG m))
    (of_num (Schema.carbsG m)) (of_num (Schema.fatG m)).

Definition chart_widget (m : Schema.Macronutrients) : widget :=
  altair_chart (donut m).

(** The chart is shown unless its frame cannot be serialised. *)
Definition chart_outcome (m : Schema.Macronutrients) : outcome :=
  match chart_error (donut m) with
  | Some e => ([], inl (Raised e))
  | None => ([chart_widget m], inr tt)
  end.

(** The bar is shown unless Streamlit refuses the value. *)
Definition progress_outcome (p : float) : outcome :=
  if check_float_between p then ([progress p], inr tt)
  else ([], inl (Raised (Exn StreamlitValueOutOfRangeError (JFloat p)))).

Definition macro_card_outcome (label : string) (v : num) (goal : Z) : outcome :=
  match App.progress_value (of_num v) goal with
  | inl e => ([macro_metric label v], inl (Raised e))
  | inr p => and_then ([macro_metric label v], inr tt) (progress_outcome p)
  end.

Definition nutrition_outcome (cal : num) (m : Schema.Macronutrients) (g : App.DailyGoal)
  : outcome :=
  match App.percent_of_goal (of_num cal) (App.calories g) with
  | inl e => ([], inl (Raised e))
  | inr pct =>
      and_then ([energy_metric cal pct], inr tt)
     (and_then (chart_outcome m)
     (and_then ([markdown "#### Macro Breakdown"], inr tt)
     (and_then (macro_card_outcome "Protein" (Schema.proteinG m) (App.proteinG g))
     (and_then (macro_card_outcome "Carbs" (Schema.carbsG m) (App.carbsG g))
               (macro_card_outcome "Fat" (Schema.fatG m) (App.fatG g))))))
  end.

(** The tab when nothing fails: the Energy metric with its delta, the
    chart, and the three cards, each a metric in grams and a bar. *)
Definition nutrition_view (cal : num) (pct : Z) (m : Schema.Macronutrients)
    (protein carbs fat : float) : list widget :=
  [energy_metric cal pct;
   chart_widget m;
   markdown "#### Macro Breakdown";
   macro_metric "Protein" (Schema.proteinG m); progress protein;
   macro_metric "Carbs" (Schema.carbsG m); progress carbs;
   macro_metric "Fat" (Schema.fatG m); progress fat].

(** The outcome of the right panel on a result that follows the schema. *)
Definition panel_outcome (r : Schema.AnalysisResult) (g : App.DailyGoal) : outcome :=
  and_then
    (header_view (Schema.foodName r) (Schema.cuisineType r) (Schema.dietaryTags r)
       (Schema.insightSummary r), inr tt)
 (and_then ([tab_bar], inr tt)
 (and_then (nutrition_outcome (Schema.calories r) (Schema.macronutrients r) g)
 (and_then (recipe_view (Schema.recipe r), inr tt)
           (alerts_view (Schema.allergenAlert r), inr tt)))).

(** What the analysis block shows when the call has raised [e]. *)
Definition failure_view (e : exn) : list widget :=
  [status "🔍 Analyzing food matrix...";
   write "Encoding image...";
   write "Consulting AI Chef...";
   status_update "Analysis Failed" "error";
   St.error ("Error: " ++ Py.exn_str float_repr str_repr e)].

(** What it shows when the encoder has raised [e]: the call is not
    announced. *)
Definition encoder_failure_view (e : exn) : list widget :=
  [status "🔍 Analyzing food matrix...";
   write "Encoding image...";
   status_update "Analysis Failed" "error";
   St.error ("Error: " ++ Py.exn_str float_repr str_repr e)].

(** What it shows when the call has returned. *)
Definition success_view : list widget :=
  [status "🔍 Analyzing food matrix...";
   write "Encoding image...";
   write "Consulting AI Chef...";
   status_update "Analysis Complete!" "complete"].
End Numbers.

(** ** Configuration and the model client *)

Definition api_key_absent (secrets : App.Secrets) : Prop :=
  match secrets with
  | App.NoSecretsFile => True
  | App.SecretsFile entries => lookup "GEMINI_API_KEY" entries = None
  end.

Section Exchange.
Variable json_decode : string -> string + value.

(** The two failures of an exchange that did get a response: an error
    status (4xx or 5xx), or status 200 with an embedded text that does
    not decode. *)
Inductive failed_exchange (response : Requests.Response) : Prop :=
| http_failure :
    400 <= Requests.status_code response < 600 ->
    failed_exchange response
| parse_failure (t msg : string) :
    Requests.status_code response = 200 ->
    App.embedded_text json_decode response = inr (JStr t) ->
    json_decode t = inl msg ->
    failed_exchange response.
End Exchange.

(** ** A run in which nothing is typed or clicked *)

Definition key_error (k : string) : signal + unit :=
  inl (Raised (Exn KeyError (JStr k))).

Definition no_edits : App.goal_edits :=
  {| App.edit_calories := None; App.edit_proteinG := None;
     App.edit_carbsG := None; App.edit_fatG := None |}.

(** The key is configured, the goals are left alone and the button is
    not pressed. *)
Definition idle {Image} (i : App.inputs Image) : Prop :=
  (exists entries key,
      App.secrets i = App.SecretsFile entries
      /\ lookup "GEMINI_API_KEY" entries = Some key)
  /\ App.edits i = no_edits
  /\ App.decode_clicked (App.captured i) = false.

Definition sidebar_view (g : App.DailyGoal) : list widget :=
  [header "⚙️ Profile & Goals";
   markdown "Set your daily nutritional targets to see how this meal fits in.";
   number_input "Calories (kcal)" (App.calories g);
   number_input "Protein (g)" (App.proteinG g);
   number_input "Carbs (g)" (App.carbsG g);
   number_input "Fat (g)" (App.fatG g);
   info "💡 **Tip:** Clear photos with good lighting give the best accuracy."].

Definition capture_view {Image} (c : App.capture Image) : list widget :=
  (markdown "#### 📸 Snap Your Meal"
   :: radio "Input method" ["Camera"; "Upload"]
   :: match App.method c with
      | App.Camera =>
          camera_input "Take a photo"
            :: match App.camera_image c with
               | Some _ => [image "Ready for analysis"; button "⚡ Decode Nutrition"]
               | None => []
               end
      | App.Upload =>
          file_uploader "Upload image" ["jpg"; "jpeg"; "png"]
            :: match App.uploaded_file c with
               | Some _ => [image "Ready for analysis"; button "⚡ Decode Nutrition"]
               | None => []
               end
      end)%list.

(** Everything an idle run shows before the right panel. *)
Definition idle_chrome {Image} (g : App.DailyGoal) (c : App.capture Image) : list widget :=
  (App.page_config :: markdown App.custom_css :: sidebar_view g
     ++ title "🍽️ NutriSnap AI"
     :: markdown "### Instant Meal Decoding & Nutrition Analysis"
     :: capture_view c)%list.

End View.

(* ================================================================== *)
(** * A sample session *)
(* ================================================================== *)

(** Concrete inputs on which the properties below are exercised. *)
Module Sample.
Import Py.

(** The sample values hold no float, so the text of a float is never
    asked for. *)
Definition float_repr (x : float) : string := "nan".

(** [repr] of a string without quotes or escapes. *)
Definition str_repr (s : string) : string := "'" ++ s ++ "'".

(** A photo of a meal, and a logo with an alpha channel. *)
Inductive picture := Meal | Logo.

Definition image_mode (p : picture) : PIL.mode :=
  match p with
  | Meal => PIL.mode_RGB
  | Logo => PIL.mode_RGBA
  end.

(** A JPEG encoder that produces the shortest stream: start of image,
    end of image. *)
Definition jpeg_save (p : picture) : string + list byte :=
  inr [xff; xd8; xff; xd9].

(** A serialiser that takes floats and the integers of 64 bits. *)
Definition arrow_value (v : value) : bool :=
  match v with
  | JInt z => (- 2 ^ 63 <=? z) && (z <? 2 ^ 63)
  | JFloat _ => true
  | _ => false
  end.

Definition chart_error (c : Altair.chart value) : option exn :=
  if forallb arrow_value (Altair.Value (Altair.data c)) then None
  else Some (Py.error StreamlitAPIException "Failed to convert the chart data to Arrow.").

(** A response envelope whose embedded text is not JSON. *)
Definition envelope_text : string :=
  "{" ++ App.q "candidates" ++ ": [{" ++ App.q "content" ++ ": {" ++ App.q "parts"
      ++ ": [{" ++ App.q "text" ++ ": " ++ App.q "not json" ++ "}]}}]}".

Definition envelope : value :=
  JDict [("candidates",
          JList [JDict [("content",
                         JDict [("parts", JList [JDict [("text", JStr "not json")]])])]])].

(** An analysis, and the envelope that carries it as its embedded
    text (the inner quotes escaped). *)
Definition toast_text : string := "{" ++ App.q "foodName" ++ ": " ++ App.q "Toast" ++ "}".

Definition toast : value := JDict [("foodName", JStr "Toast")].

Definition backslash : string := String (ascii_of_nat 92) EmptyString.

Definition escaped (s : string) : string := backslash ++ dquote ++ s ++ backslash ++ dquote.

Definition toast_envelope_text : string :=
  "{" ++ App.q "candidates" ++ ": [{" ++ App.q "content" ++ ": {" ++ App.q "parts"
      ++ ": [{" ++ App.q "text" ++ ": "
      ++ App.q ("{" ++ escaped "foodName" ++ ": " ++ escaped "Toast" ++ "}")
      ++ "}]}}]}".

Definition toast_envelope : value :=
  JDict [("candidates",
          JList [JDict [("content",
                         JDict [("parts", JList [JDict [("text", JStr toast_text)]])])]])].

(** A decoder that knows these documents. *)
Definition json_decode (s : string) : string + value :=
  if String.eqb s envelope_text then inr envelope
  else if String.eqb s toast_envelope_text then inr toast_envelope
  else if String.eqb s toast_text then inr toast
  else inl "Expecting value: line 1 column 1 (char 0)".

Definition server_error : Requests.Response :=
  {| Requests.status_code := 500;
     Requests.reason := "Internal Server Error";
     Requests.url := App.MODEL_URL;
     Requests.text := EmptyString |}.

Definition bad_text : Requests.Response :=
  {| Requests.status_code := 200;
     Requests.reason := "OK";
     Requests.url := App.MODEL_URL;
     Requests.text := envelope_text |}.

(** A response that is neither a success nor an error status, with a
    body in the shape of an answer. *)
Definition not_modified : Requests.Response :=
  {| Requests.status_code := 304;
     Requests.reason := "Not Modified";
     Requests.url := App.MODEL_URL;
     Requests.text := toast_envelope_text |}.

Definition post_500 (r : Requests.Request) : Requests.post_outcome :=
  Requests.PostResponse server_error.

Definition post_304 (r : Requests.Request) : Requests.post_outcome :=
  Requests.PostResponse not_modified.

Definition post_bad_text (r : Requests.Request) : Requests.post_outcome :=
  Requests.PostResponse bad_text.

Definition meal : Schema.AnalysisResult :=
  {| Schema.foodName := "Pad Thai";
     Schema.cuisineType := "Thai";
     Schema.calories := NInt 600;
     Schema.macronutrients :=
       {| Schema.proteinG := NInt 150; Schema.carbsG := NInt 50; Schema.fatG := NInt 20 |};
     Schema.insightSummary := "A balanced plate.";
     Schema.dietaryTags := [];
     Schema.recipe :=
       {| Schema.title := "Pad Thai";
          Schema.ingredients := ["200 g rice noodles"; "30 g peanuts"];
          Schema.instructions := ["Soak the noodles."; "Stir-fry everything."] |};
     Schema.allergenAlert :=
       {| Schema.riskLevel := Schema.Medium;
          Schema.detected := ["peanuts"];
          Schema.advice := "Avoid" |} |}.

Definition no_calorie_goal : App.DailyGoal :=
  {| App.calories := 0; App.proteinG := 120; App.carbsG := 250; App.fatG := 65 |}.

(** A protein goal below zero, as the number field lets one type. *)
Definition negative_goal : App.DailyGoal :=
  {| App.calories := 2000; App.proteinG := -120; App.carbsG := 250; App.fatG := 65 |}.

Definition no_capture : App.capture picture :=
  {| App.method := App.Camera;
     App.camera_image := None;
     App.uploaded_file := None;
     App.decode_clicked := false |}.

Definition unconfigured : App.inputs picture :=
  {| App.secrets := App.NoSecretsFile;
     App.edits := View.no_edits;
     App.captured := no_capture |}.

Definition idle_inputs : App.inputs picture :=
  {| App.secrets := App.SecretsFile [("GEMINI_API_KEY", JStr "k")];
     App.edits := View.no_edits;
     App.captured := no_capture |}.

Definition empty_session : App.session_state :=
  {| App.analysis := None; App.daily_goal := None |}.

Definition stored_session : App.session_state :=
  View.panel_state (Schema.to_json meal) App.default_goal.


(** The script and its blocks in this environment. *)
Definition script (post : Requests.Request -> Requests.post_outcome)
  : App.inputs picture -> St.M App.session_state unit :=
  App.script float_repr str_repr json_decode image_mode jpeg_save post chart_error.

Definition decode_nutrition (post : Requests.Request -> Requests.post_outcome)
  : value -> picture -> St.M App.session_state unit :=
  App.decode_nutrition float_repr str_repr json_decode image_mode jpeg_save post.

Definition image_to_base64 : picture -> res string :=
  App.image_to_base64 image_mode jpeg_save.

Definition right_panel : St.M App.session_state unit :=
  App.right_panel float_repr str_repr chart_error.

Definition nutrition_tab : value -> App.DailyGoal -> St.M App.session_state unit :=
  App.nutrition_tab float_repr str_repr chart_error.

Definition header_section : value -> St.M App.session_state unit :=
  App.header_section float_repr str_repr.

Definition exn_str : exn -> string := Py.exn_str float_repr str_repr.

End Sample.

(* ================================================================== *)
(** * Properties *)
(* ================================================================== *)

#[local] Arguments Py.issubclass : simpl never.
#[local] Arguments Py.truediv : simpl never.
#[local] Arguments Py.fmul_int : simpl never.
#[local] Arguments Py.round : simpl never.
#[local] Arguments Py.fmin : simpl never.
#[local] Arguments Py.string_of_Z : simpl never.
#[local] Arguments St.check_float_between : simpl never.
#[local] Arguments App.percent_of_goal : simpl never.
#[local] Arguments App.progress_value : simpl never.
#[local] Arguments App.macro_card : simpl never.
#[local] Arguments App.st_altair_chart : simpl never.
#[local] Arguments App.header_section : simpl never.
#[local] Arguments App.nutrition_tab : simpl never.
#[local] Arguments App.recipe_tab : simpl never.
#[local] Arguments App.alerts_tab : simpl never.
#[local] Arguments App.right_panel : simpl never.

(** ** The run monad *)

Section MonadFacts.
Context {S : Type}.

Lemma bind_ok {A B} (m : St.M S A) (k : A -> St.M S B) s s1 w1 a :
  m s = (s1, w1, inr a) ->
  St.bind m k s = (let '(s2, w2, r) := k a s1 in (s2, (w1 ++ w2)%list, r)).
Proof. intros H. unfold St.bind. rewrite H. reflexivity. Qed.

Lemma bind_signal {A B} (m : St.M S A) (k : A -> St.M S B) s s1 w1 sig :
  m s = (s1, w1, inl sig) ->
  St.bind m k s = (s1, w1, inl sig).
Proof. intros H. unfold St.bind. rewrite H. reflexivity. Qed.

Lemma bind_lift_inr {A B} (a : A) (k : A -> St.M S B) s :
  St.bind (St.lift (inr a)) k s = k a s.
Proof. unfold St.bind. cbn. destruct (k a s) as [[s2 w2] r]. reflexivity. Qed.

Lemma bind_emit {B} (w : St.widget) (k : unit -> St.M S B) s :
  St.bind (St.emit w) k s = (let '(s2, w2, r) := k tt s in (s2, w :: w2, r)).
Proof. reflexivity. Qed.

Lemma bind_lift_inl {A B} (e : Py.exn) (k : A -> St.M S B) s :
  St.bind (St.lift (inl e)) k s = (s, [], inl (St.Raised e)).
Proof. reflexivity. Qed.

Lemma for_each_emit {A} (f : A -> St.widget) (l : list A) (s : S) :
  St.for_each l (fun x => St.emit (f x)) s = (s, map f l, inr tt).
Proof.
  induction l as [|x l IH]; [reflexivity|].
  cbn. unfold St.bind. cbn. rewrite IH. reflexivity.
Qed.

Lemma for_each_emit_pair {A B} (f : A * B -> St.widget) (l : list (A * B)) (s : S) :
  St.for_each l (fun '(a, b) => St.emit (f (a, b))) s = (s, map f l, inr tt).
Proof.
  induction l as [|[a b] l IH]; [reflexivity|].
  cbn. unfold St.bind. cbn. rewrite IH. reflexivity.
Qed.
End MonadFacts.

Lemma and_then_signal (a b : View.outcome) sig :
  snd a = inl sig -> View.and_then a b = a.
Proof. intros H. unfold View.and_then. rewrite H. reflexivity. Qed.

Lemma and_then_ok (a b : View.outcome) u :
  snd a = inr u -> View.and_then a b = ((fst a ++ fst b)%list, snd b).
Proof. intros H. unfold View.and_then. rewrite H. reflexivity. Qed.

(** Two blocks that leave the state alone, one after the other. *)
Lemma seq_run {S} (m : St.M S unit) (k : unit -> St.M S unit) (s : S)
    (a b : View.outcome) :
  m s = (s, fst a, snd a) ->
  k tt s = (s, fst b, snd b) ->
  St.bind m k s = (s, fst (View.and_then a b), snd (View.and_then a b)).
Proof.
  intros Ha Hb. unfold St.bind, View.and_then. rewrite Ha.
  destruct a as [va [sig|[]]]; cbn; [reflexivity|].
  rewrite Hb. reflexivity.
Qed.

Lemma and_then_done (v : list St.widget) (b : View.outcome) :
  View.and_then (v, inr tt) b = ((v ++ fst b)%list, snd b).
Proof. reflexivity. Qed.

Lemma existsb_app_false {A} (p : A -> bool) (l1 l2 : list A) :
  existsb p l1 = false -> existsb p l2 = false -> existsb p (l1 ++ l2) = false.
Proof. intros H1 H2. rewrite existsb_app, H1, H2. reflexivity. Qed.

Lemma existsb_map_not_error {A} (f : A -> St.widget) (l : list A) :
  (forall x, St.is_st_error (f x) = false) ->
  existsb St.is_st_error (map f l) = false.
Proof.
  intros H. induction l as [|x l IH]; [reflexivity|].
  cbn. rewrite H, IH. reflexivity.
Qed.

Lemma enumerate_map {A B} (f : A -> B) (l : list A) (n : Z) :
  Py.enumerate n (map f l) = map (fun p => (fst p, f (snd p))) (Py.enumerate n l).
Proof.
  revert n. induction l as [|x l IH]; intros n; [reflexivity|].
  cbn. rewrite IH. reflexivity.
Qed.

Lemma getitem_found d k v :
  Py.lookup k d = Some v -> Py.getitem (Py.JDict d) k = inr v.
Proof. intros H. unfold Py.getitem. rewrite H. reflexivity. Qed.

Lemma getitem_missing d k :
  Py.lookup k d = None -> Py.getitem (Py.JDict d) k = inl (Py.Exn Py.KeyError (Py.JStr k)).
Proof. intros H. unfold Py.getitem. rewrite H. reflexivity. Qed.

Lemma every_class_is_an_Exception (c : Py.exn_class) :
  Py.issubclass c Py.Exception_ = true.
Proof. destruct c; reflexivity. Qed.

(** ** Start-up without the API key *)

Section Startup.
Variable float_repr : Py.float -> string.
Variable str_repr : string -> string.
Variable json_decode : string -> string + Py.value.
Variable Image : Type.
Variable image_mode : Image -> PIL.mode.
Variable jpeg_save : Image -> string + list byte.
Variable post : Requests.Request -> Requests.post_outcome.
Variable chart_error : Altair.chart Py.value -> option Py.exn.

Let script := App.script float_repr str_repr json_decode image_mode jpeg_save post chart_error.

Lemma script_no_secrets_file (i : App.inputs Image) (s : App.session_state) :
  App.secrets i = App.NoSecretsFile ->
  script i s =
    (s, [App.page_config;
         St.error "Secrets file not found. Please set up your .streamlit/secrets.toml"],
     inl St.Stopped).
Proof.
  intros E. unfold script, App.script. rewrite E. reflexivity.
Qed.

Lemma script_key_missing (i : App.inputs Image) (s : App.session_state) entries :
  App.secrets i = App.SecretsFile entries ->
  Py.lookup "GEMINI_API_KEY" entries = None ->
  script i s =
    (s, [App.page_config],
     inl (St.Raised (Py.error Py.KeyError
                       (App.missing_key_message "GEMINI_API_KEY")))).
Proof.
  intros E H. unfold script, App.script. rewrite E.
  unfold St.bind, App.load_secrets, St.try_except. cbn. rewrite H. reflexivity.
Qed.

(** C5.  When the API key is absent from the secrets store, whether the
    secrets file is missing or lacks the key, a run stops right after the
    page configuration: the session state is untouched, none of the
    interface is emitted, and the page ends with an error element.  With
    no secrets file it is the script's own [st.error] followed by
    [st.stop()]; with a file that lacks the key it is the [KeyError] of
    the lookup, which the [except FileNotFoundError] clause lets through
    and Streamlit displays. *)
Theorem startup_halts_without_api_key :
  forall (i : App.inputs Image) (s : App.session_state),
    View.api_key_absent (App.secrets i) ->
    ((App.secrets i = App.NoSecretsFile /\
      script i s =
        (s, [App.page_config;
             St.error "Secrets file not found. Please set up your .streamlit/secrets.toml"],
         inl St.Stopped))
     \/
     (exists msg,
        script i s =
          (s, [App.page_config], inl (St.Raised (Py.error Py.KeyError msg)))))
    /\ exists err,
         St.page (script i s) = [St.Widget App.page_config; err]
         /\ St.is_error_element err = true.
Proof.
  intros i s H.
  destruct (App.secrets i) as [|entries] eqn:E; cbn in H.
  - rewrite (script_no_secrets_file i s E). split.
    + left. split; reflexivity.
    + eexists. split; reflexivity.
  - rewrite (script_key_missing i s entries E H). split.
    + right. eexists. reflexivity.
    + eexists. split; reflexivity.
Qed.
End Startup.

(** ** The model client *)

Lemma raise_for_status_error response :
  400 <= Requests.status_code response < 600 ->
  exists rest,
    Requests.raise_for_status response =
      inl (Py.error Py.HTTPError
             (Py.string_of_Z (Requests.status_code response) ++ rest)).
Proof.
  intros H. unfold Requests.raise_for_status.
  destruct (Z.ltb_spec (Requests.status_code response) 500).
  - replace (400 <=? Requests.status_code response) with true
      by (symmetry; apply Z.leb_le; lia).
    cbn. eexists. reflexivity.
  - replace (500 <=? Requests.status_code response) with true
      by (symmetry; apply Z.leb_le; lia).
    replace (Requests.status_code response <? 600) with true
      by (symmetry; apply Z.ltb_lt; lia).
    rewrite andb_false_r. cbn. eexists. reflexivity.
Qed.

Section ModelClient.
Variable float_repr : Py.float -> string.
Variable str_repr : string -> string.
Variable json_decode : string -> string + Py.value.
Variable Image : Type.
Variable image_mode : Image -> PIL.mode.
Variable jpeg_save : Image -> string + list byte.
Variable post : Requests.Request -> Requests.post_outcome.
Variable chart_error : Altair.chart Py.value -> option Py.exn.

Let exn_str := Py.exn_str float_repr str_repr.
Let call_gemini := App.call_gemini float_repr str_repr json_decode post.
Let decode_nutrition :=
  App.decode_nutrition float_repr str_repr json_decode image_mode jpeg_save post.
Let gemini_request := App.gemini_request float_repr str_repr.
Let failure_view := View.failure_view float_repr str_repr.

(** Whatever the call raises is caught by [except Exception]: the
    assignment to the store is never reached. *)
Lemma decode_nutrition_call_failure API_KEY image img_b64 e s :
  App.image_to_base64 image_mode jpeg_save image = inr img_b64 ->
  call_gemini API_KEY img_b64 = inl e ->
  decode_nutrition API_KEY image s = (s, failure_view e, inr tt).
Proof.
  intros Himg Hcall.
  unfold decode_nutrition, App.decode_nutrition, St.try_except, St.bind.
  cbn. rewrite Himg. cbn. fold call_gemini. rewrite Hcall.
  cbn. rewrite every_class_is_an_Exception. reflexivity.
Qed.

Lemma failed_exchange_raises API_KEY img_b64 response :
  post (gemini_request API_KEY img_b64) = Requests.PostResponse response ->
  View.failed_exchange json_decode response ->
  exists e,
    call_gemini API_KEY img_b64 = inl e
    /\ (400 <= Requests.status_code response < 600 ->
        exists rest,
          exn_str e = Py.string_of_Z (Requests.status_code response) ++ rest)
    /\ (Requests.status_code response = 200 ->
        Py.exn_cls e = Py.JSONDecodeError).
Proof.
  intros Hpost Hfail.
  unfold call_gemini, App.call_gemini, App.requests_post.
  fold gemini_request. rewrite Hpost. cbn.
  destruct Hfail as [Hst | t msg Hst Htxt Hdec].
  - destruct (raise_for_status_error response Hst) as [rest ->]. cbn.
    eexists. split; [reflexivity|]. split.
    + intros _. exists rest. reflexivity.
    + intros E. lia.
  - assert (Hok : Requests.raise_for_status response = inr tt).
    { unfold Requests.raise_for_status. rewrite Hst. reflexivity. }
    rewrite Hok. cbn. rewrite Htxt. cbn. rewrite Hdec.
    eexists. split; [reflexivity|]. split.
    + intros E. lia.
    + reflexivity.
Qed.

(** C1.  When the exchange fails, by an error status (4xx or 5xx, the
    statuses [raise_for_status] rejects) or by status 200 with an
    embedded text that is not valid JSON, [call_gemini] raises; the
    analysis block then ends normally with the session state exactly as
    it was and an [st.error] showing the text of the exception, which
    for an error status starts with the status code and for the
    undecodable text is a JSON decode error. *)
Theorem failed_call_surfaces_error_and_keeps_store :
  forall API_KEY image img_b64 response s,
    App.image_to_base64 image_mode jpeg_save image = inr img_b64 ->
    post (gemini_request API_KEY img_b64) = Requests.PostResponse response ->
    View.failed_exchange json_decode response ->
    exists e,
      call_gemini API_KEY img_b64 = inl e
      /\ decode_nutrition API_KEY image s = (s, failure_view e, inr tt)
      /\ (400 <= Requests.status_code response < 600 ->
          exists rest,
            exn_str e = Py.string_of_Z (Requests.status_code response) ++ rest)
      /\ (Requests.status_code response = 200 ->
          Py.exn_cls e = Py.JSONDecodeError).
Proof.
  intros API_KEY image img_b64 response s Himg Hpost Hfail.
  destruct (failed_exchange_raises API_KEY img_b64 response Hpost Hfail)
    as (e & Hcall & Hhttp & Hparse).
  exists e. split; [exact Hcall|]. split; [|split; assumption].
  eapply decode_nutrition_call_failure; eassumption.
Qed.
End ModelClient.

(** ** Rounding, percentages and progress values *)

Lemma denominator_pos e : 0 < View.denominator e.
Proof. unfold View.denominator. apply Z.pow_pos_nonneg; lia. Qed.

(** Rounding a quotient by its remainder. *)
Lemma nearest_quotient (a d : Z) :
  0 < d ->
  let q := a / d in
  let n := match 2 * (a mod d) ?= d with
           | Lt => q
           | Gt => q + 1
           | Eq => if Z.even q then q else q + 1
           end in
  2 * Z.abs (a - n * d) <= d
  /\ (2 * Z.abs (a - n * d) = d -> Z.even n = true).
Proof.
  intros Hd q n.
  pose proof (Z.div_mod a d ltac:(lia)) as Ha.
  pose proof (Z.mod_pos_bound a d Hd) as Hr.
  fold q in Ha. subst n.
  destruct (Z.compare_spec (2 * (a mod d)) d) as [E|L|G].
  - destruct (Z.even q) eqn:Ev.
    + split; [lia|]. intros _. exact Ev.
    + split; [lia|]. intros _.
      replace (q + 1) with (Z.succ q) by lia.
      rewrite Z.even_succ, <- Z.negb_even, Ev. reflexivity.
  - split; [lia|]. intros H. exfalso. lia.
  - split; [lia|]. intros H. exfalso. lia.
Qed.

Lemma round_half_even_nearest m e :
  View.nearest_even m e (Py.round_half_even m e).
Proof.
  unfold View.nearest_even, View.numerator, View.denominator, Py.round_half_even.
  destruct e as [|p|p].
  - change (Z.max 0 0) with 0. change (Z.max (- 0) 0) with 0.
    change (2 ^ 0) with 1. split; lia.
  - rewrite Z.max_l by lia. rewrite (Z.max_r (- Z.pos p) 0) by lia.
    change (2 ^ 0) with 1. split; lia.
  - rewrite (Z.max_r (Z.neg p) 0) by lia. rewrite (Z.max_l (- Z.neg p) 0) by lia.
    change (2 ^ 0) with 1. rewrite Z.mul_1_r.
    apply nearest_quotient. apply Z.pow_pos_nonneg; lia.
Qed.

Lemma nearest_even_unique m e n n' :
  View.nearest_even m e n -> View.nearest_even m e n' -> n = n'.
Proof.
  unfold View.nearest_even.
  pose proof (denominator_pos e) as Hd.
  set (a := View.numerator m e). set (d := View.denominator e) in *.
  intros [H1 T1] [H2 T2].
  assert (Hn : n' - n <= 1) by nia.
  assert (Hn' : n - n' <= 1) by nia.
  destruct (Z.eq_dec n n') as [E|N]; [exact E|exfalso].
  assert (Hc : n' = Z.succ n \/ n = Z.succ n') by lia.
  destruct Hc as [-> | ->].
  - assert (E1 : 2 * Z.abs (a - n * d) = d) by nia.
    assert (E2 : 2 * Z.abs (a - Z.succ n * d) = d) by nia.
    specialize (T1 E1). specialize (T2 E2).
    rewrite Z.even_succ, <- Z.negb_even, T1 in T2. discriminate.
  - assert (E1 : 2 * Z.abs (a - n' * d) = d) by nia.
    assert (E2 : 2 * Z.abs (a - Z.succ n' * d) = d) by nia.
    specialize (T1 E2). specialize (T2 E1).
    rewrite Z.even_succ, <- Z.negb_even, T2 in T1. discriminate.
Qed.

(** [round] is rounding to the nearest integer, ties to even. *)
Lemma round_rounds_to x n :
  Py.round x = inr n <-> View.rounds_to x n.
Proof.
  destruct x as [s|s| |s m e]; cbn; unfold Py.round.
  - split; [intros H; injection H as <-; reflexivity|intros ->; reflexivity].
  - split; [discriminate|intros []].
  - split; [discriminate|intros []].
  - pose proof (round_half_even_nearest m e) as Hr. split.
    + intros H. injection H as <-. destruct s; [|exact Hr].
      rewrite Z.opp_involutive. exact Hr.
    + intros H. f_equal.
      pose proof (nearest_even_unique m e _ _ Hr H) as E.
      destruct s; lia.
Qed.

Lemma float_of_hundred : Py.float_of_int 100 = inr View.hundred.
Proof. reflexivity. Qed.

Lemma percent_of_goal_spec v goal n :
  App.percent_of_goal v goal = inr n <-> View.percentage v goal n.
Proof.
  unfold View.percentage, App.percent_of_goal, Py.fmul_int. rewrite float_of_hundred.
  destruct (Py.truediv v (Py.JInt goal)) as [e|ratio]; cbn.
  - split; [discriminate|]. intros (r & H & _). discriminate.
  - rewrite round_rounds_to. split.
    + intros H. exists ratio. split; [reflexivity|exact H].
    + intros (r & H & Hr). injection H as <-. exact Hr.
Qed.

Lemma progress_value_spec v goal p :
  App.progress_value v goal = inr p <-> View.clamped_ratio v goal p.
Proof.
  unfold View.clamped_ratio, App.progress_value.
  destruct (Py.truediv v (Py.JInt goal)) as [e|ratio]; cbn.
  - split; [discriminate|]. intros (r & H & _). discriminate.
  - split.
    + intros H. injection H as <-. exists ratio. split; reflexivity.
    + intros (r & H & ->). injection H as <-. reflexivity.
Qed.

(** A clamped ratio is never above 1.0. *)
Lemma clamp_not_above_one ratio : Py.fltb Py.one (View.clamp ratio) = false.
Proof.
  unfold View.clamp. destruct (Py.fltb Py.one ratio) eqn:E; [reflexivity|exact E].
Qed.

(** ** The blocks of the right panel *)

Lemma truediv_by_zero (v : Py.num) :
  exists msg,
    Py.truediv (Py.of_num v) (Py.JInt 0) = inl (Py.error Py.ZeroDivisionError msg).
Proof.
  destruct v as [z|f]; eexists; reflexivity.
Qed.

Lemma percent_of_goal_zero (v : Py.num) :
  exists msg,
    App.percent_of_goal (Py.of_num v) 0 = inl (Py.error Py.ZeroDivisionError msg).
Proof.
  destruct (truediv_by_zero v) as [msg H]. exists msg.
  unfold App.percent_of_goal. rewrite H. reflexivity.
Qed.

Lemma progress_value_zero (v : Py.num) :
  exists msg,
    App.progress_value (Py.of_num v) 0 = inl (Py.error Py.ZeroDivisionError msg).
Proof.
  destruct (truediv_by_zero v) as [msg H]. exists msg.
  unfold App.progress_value. rewrite H. reflexivity.
Qed.

Lemma risk_color_getitem_invalid v :
  ~ View.valid_risk v ->
  App.risk_color_getitem v = inl (View.risk_lookup_error v).
Proof.
  intros Hv. destruct v as [| | | |k| |]; try reflexivity.
  unfold App.risk_color_getitem, App.risk_color, Py.lookup.
  destruct (String.eqb_spec k "High") as [->|_];
    [exfalso; apply Hv; left; reflexivity|].
  destruct (String.eqb_spec k "Medium") as [->|_];
    [exfalso; apply Hv; right; left; reflexivity|].
  destruct (String.eqb_spec k "Low") as [->|_];
    [exfalso; apply Hv; right; right; reflexivity|].
  reflexivity.
Qed.

Section Blocks.
Variable float_repr : Py.float -> string.
Variable str_repr : string -> string.
Variable chart_error : Altair.chart Py.value -> option Py.exn.

Let header_section := App.header_section float_repr str_repr.
Let nutrition_tab := App.nutrition_tab float_repr str_repr chart_error.
Let recipe_tab := App.recipe_tab float_repr str_repr.
Let alerts_tab := App.alerts_tab float_repr str_repr.
Let right_panel := App.right_panel float_repr str_repr chart_error.
Let nutrition_outcome := View.nutrition_outcome float_repr str_repr chart_error.
Let panel_outcome := View.panel_outcome float_repr str_repr chart_error.

(** The header reads four keys; a missing [dietaryTags] counts as no
    tags. *)
Lemma header_section_run d fn ct tags ins (s : App.session_state) :
  Py.lookup "foodName" d = Some (Py.JStr fn) ->
  Py.lookup "cuisineType" d = Some (Py.JStr ct) ->
  (Py.lookup "dietaryTags" d = Some (Schema.strs tags)
   \/ (Py.lookup "dietaryTags" d = None /\ tags = [])) ->
  Py.lookup "insightSummary" d = Some (Py.JStr ins) ->
  header_section (Py.JDict d) s = (s, View.header_view fn ct tags ins, inr tt).
Proof.
  intros Hfn Hct Htags Hins.
  unfold header_section, App.header_section, St.bind, Py.getitem, Py.get.
  rewrite Hfn, Hct, Hins.
  destruct Htags as [Ht | [Ht ->]]; rewrite Ht; cbn;
    unfold View.header_view; rewrite ?map_map; reflexivity.
Qed.

Lemma recipe_tab_run d r (s : App.session_state) :
  Py.lookup "recipe" d = Some (Schema.recipe_to_json r) ->
  recipe_tab (Py.JDict d) s = (s, View.recipe_view r, inr tt).
Proof.
  intros Hr. destruct r as [t ings steps].
  unfold recipe_tab, App.recipe_tab, St.bind, Py.getitem.
  rewrite Hr. cbn.
  rewrite (for_each_emit (fun ing => St.markdown ("- " ++ Py.str float_repr str_repr ing))).
  cbn. rewrite enumerate_map.
  rewrite (for_each_emit_pair
             (fun p => St.markdown ("**" ++ Py.string_of_Z (fst p) ++ ".** "
                                      ++ Py.str float_repr str_repr (snd p)))).
  unfold View.recipe_view. cbn. rewrite !map_map. reflexivity.
Qed.

Lemma macro_card_run label key md v goal (s : App.session_state) :
  Py.lookup key md = Some (Py.of_num v) ->
  App.macro_card float_repr str_repr label key (Py.JDict md) goal s =
    (s, fst (View.macro_card_outcome float_repr str_repr label v goal),
     snd (View.macro_card_outcome float_repr str_repr label v goal)).
Proof.
  intros H. unfold App.macro_card, View.macro_card_outcome, St.bind, Py.getitem.
  rewrite H. cbn.
  destruct (App.progress_value (Py.of_num v) goal) as [e|p]; [reflexivity|].
  cbn. unfold St.st_progress, View.progress_outcome, View.and_then.
  destruct (St.check_float_between p); reflexivity.
Qed.

Lemma st_altair_chart_run m (s : App.session_state) :
  App.st_altair_chart chart_error (View.donut m) s =
    (s, fst (View.chart_outcome chart_error m), snd (View.chart_outcome chart_error m)).
Proof.
  unfold App.st_altair_chart, View.chart_outcome.
  destruct (chart_error (View.donut m)); reflexivity.
Qed.

Lemma nutrition_tab_run d cal m g (s : App.session_state) :
  Py.lookup "calories" d = Some (Py.of_num cal) ->
  Py.lookup "macronutrients" d = Some (Schema.macros_to_json m) ->
  nutrition_tab (Py.JDict d) g s =
    (s, fst (nutrition_outcome cal m g), snd (nutrition_outcome cal m g)).
Proof.
  intros Hc Hm.
  unfold nutrition_tab, App.nutrition_tab, nutrition_outcome, View.nutrition_outcome.
  rewrite (getitem_found d "calories" _ Hc), (getitem_found d "macronutrients" _ Hm).
  rewrite !bind_lift_inr.
  destruct (App.percent_of_goal (Py.of_num cal) (App.calories g)) as [e|pct];
    [reflexivity|].
  rewrite bind_lift_inr.
  apply seq_run; [reflexivity|].
  rewrite bind_lift_inr.
  destruct m as [p c f]. unfold Schema.macros_to_json.
  rewrite (getitem_found _ "proteinG" (Py.of_num p)) by reflexivity.
  rewrite (getitem_found _ "carbsG" (Py.of_num c)) by reflexivity.
  rewrite (getitem_found _ "fatG" (Py.of_num f)) by reflexivity.
  rewrite !bind_lift_inr.
  apply seq_run; [apply (st_altair_chart_run (Schema.Build_Macronutrients p c f))|].
  apply seq_run; [reflexivity|].
  apply seq_run; [apply macro_card_run; reflexivity|].
  apply seq_run; apply macro_card_run; reflexivity.
Qed.

Lemma alerts_tab_run d a (s : App.session_state) :
  Py.lookup "allergenAlert" d
    = Some (Schema.alert_with_risk
              (Py.JStr (Schema.risk_name (Schema.riskLevel a))) a) ->
  alerts_tab (Py.JDict d) s = (s, View.alerts_view a, inr tt).
Proof.
  intros Ha. destruct a as [lvl det adv].
  unfold alerts_tab, App.alerts_tab, St.bind. unfold Py.getitem at 1. rewrite Ha.
  destruct lvl, det as [|item det]; cbn.
  all: try reflexivity.
  all: unfold St.bind; cbn.
  all: rewrite (for_each_emit
                  (fun item =>
                     St.markdown ("- 🔴 **" ++ Py.str float_repr str_repr item ++ "**")));
    cbn; unfold View.alerts_view, View.detected_entries; cbn; rewrite map_map;
    reflexivity.
Qed.

Lemma alerts_tab_invalid_risk d a v (s : App.session_state) :
  Py.lookup "allergenAlert" d = Some (Schema.alert_with_risk v a) ->
  ~ View.valid_risk v ->
  alerts_tab (Py.JDict d) s = (s, [], inl (St.Raised (View.risk_lookup_error v))).
Proof.
  intros Ha Hv.
  unfold alerts_tab, App.alerts_tab, St.bind. unfold Py.getitem at 1. rewrite Ha.
  cbn. rewrite (risk_color_getitem_invalid v Hv). reflexivity.
Qed.

(** The right panel on a non-empty dictionary is its four blocks in
    sequence, the tab bar after the header. *)
Lemma right_panel_run d g (s : App.session_state) (h n rc al : View.outcome) :
  App.analysis s = Some (Py.JDict d) ->
  App.daily_goal s = Some g ->
  d <> [] ->
  header_section (Py.JDict d) s = (s, fst h, snd h) ->
  nutrition_tab (Py.JDict d) g s = (s, fst n, snd n) ->
  recipe_tab (Py.JDict d) s = (s, fst rc, snd rc) ->
  alerts_tab (Py.JDict d) s = (s, fst al, snd al) ->
  right_panel s =
    (s,
     fst (View.and_then h (View.and_then ([View.tab_bar], inr tt)
           (View.and_then n (View.and_then rc al)))),
     snd (View.and_then h (View.and_then ([View.tab_bar], inr tt)
           (View.and_then n (View.and_then rc al))))).
Proof.
  intros Ha Hg Hd Hh Hn Hr Hal.
  unfold right_panel, App.right_panel, App.get_analysis, App.get_daily_goal.
  unfold St.bind at 1 2 3 4. cbn. rewrite Ha. cbn. rewrite Hg. cbn.
  destruct d as [|kv d']; [congruence|]. cbn.
  fold header_section nutrition_tab recipe_tab alerts_tab.
  unfold St.bind. rewrite Hh. unfold View.and_then.
  destruct h as [hv [sig|[]]]; [reflexivity|]. cbn.
  rewrite Hn. destruct n as [nv [sig|[]]]; [reflexivity|]. cbn.
  rewrite Hr. destruct rc as [rv [sig|[]]]; [reflexivity|]. cbn.
  rewrite Hal. destruct al as [av ar]. reflexivity.
Qed.

Lemma right_panel_schema r g :
  right_panel (View.panel_state (Schema.to_json r) g) =
    (View.panel_state (Schema.to_json r) g,
     fst (panel_outcome r g), snd (panel_outcome r g)).
Proof.
  unfold right_panel, panel_outcome, View.panel_outcome.
  apply right_panel_run with (d := Schema.fields r) (g := g);
    try reflexivity.
  - discriminate.
  - cbn [fst snd]. apply header_section_run; try reflexivity. left. reflexivity.
  - apply nutrition_tab_run; reflexivity.
  - cbn [fst snd]. apply recipe_tab_run; reflexivity.
  - cbn [fst snd]. apply alerts_tab_run; reflexivity.
Qed.

(** C4.  For every result that follows the schema, the alert tab shows
    the risk level with the colour of the severity mapping (High red,
    Medium orange, Low green), then the advice as a success box when the
    level is Low and as a warning otherwise, then, when the list of
    detected allergens is not empty, a caption and one entry per item in
    order; it does not fail and leaves the session state alone. *)
Theorem allergen_risk_rendering :
  forall (r : Schema.AnalysisResult) (s : App.session_state),
    alerts_tab (Schema.to_json r) s =
      (s,
       View.risk_marker (Schema.riskLevel (Schema.allergenAlert r))
         :: View.advice_widget (Schema.allergenAlert r)
         :: View.detected_entries (Schema.detected (Schema.allergenAlert r)),
       inr tt).
Proof.
  intros r s. apply (alerts_tab_run (Schema.fields r)). reflexivity.
Qed.

(** The nutrition tab either ends with an exception or shows the whole
    view. *)
Lemma nutrition_outcome_cases cal m g :
  (exists e, snd (nutrition_outcome cal m g) = inl (St.Raised e))
  \/ (exists pct pp pc pf,
         App.percent_of_goal (Py.of_num cal) (App.calories g) = inr pct
         /\ chart_error (View.donut m) = None
         /\ App.progress_value (Py.of_num (Schema.proteinG m)) (App.proteinG g) = inr pp
         /\ St.check_float_between pp = true
         /\ App.progress_value (Py.of_num (Schema.carbsG m)) (App.carbsG g) = inr pc
         /\ St.check_float_between pc = true
         /\ App.progress_value (Py.of_num (Schema.fatG m)) (App.fatG g) = inr pf
         /\ St.check_float_between pf = true
         /\ nutrition_outcome cal m g =
              (View.nutrition_view float_repr str_repr cal pct m pp pc pf, inr tt)).
Proof.
  unfold nutrition_outcome, View.nutrition_outcome, View.chart_outcome,
    View.macro_card_outcome, View.progress_outcome, View.and_then.
  destruct (App.percent_of_goal _ _) as [e|pct]; [left; eexists; reflexivity|].
  cbn.
  destruct (chart_error _) as [e|]; [left; eexists; reflexivity|].
  cbn.
  destruct (App.progress_value (Py.of_num (Schema.proteinG m)) _) as [e|pp];
    [left; eexists; reflexivity|].
  cbn.
  destruct (St.check_float_between pp) eqn:Hp; [|left; eexists; reflexivity].
  cbn.
  destruct (App.progress_value (Py.of_num (Schema.carbsG m)) _) as [e|pc];
    [left; eexists; reflexivity|].
  cbn.
  destruct (St.check_float_between pc) eqn:Hc; [|left; eexists; reflexivity].
  cbn.
  destruct (App.progress_value (Py.of_num (Schema.fatG m)) _) as [e|pf];
    [left; eexists; reflexivity|].
  cbn.
  destruct (St.check_float_between pf) eqn:Hf; [|left; eexists; reflexivity].
  right. exists pct, pp, pc, pf. repeat split; assumption.
Qed.

Lemma nutrition_outcome_no_error cal m g :
  existsb St.is_st_error (fst (nutrition_outcome cal m g)) = false.
Proof.
  unfold nutrition_outcome, View.nutrition_outcome, View.chart_outcome,
    View.macro_card_outcome, View.progress_outcome, View.and_then.
  destruct (App.percent_of_goal _ _) as [e|pct]; [reflexivity|].
  cbn.
  destruct (chart_error _) as [e|]; [reflexivity|].
  cbn.
  destruct (App.progress_value (Py.of_num (Schema.proteinG m)) _) as [e|pp];
    [reflexivity|].
  cbn.
  destruct (St.check_float_between pp); [|reflexivity].
  cbn.
  destruct (App.progress_value (Py.of_num (Schema.carbsG m)) _) as [e|pc];
    [reflexivity|].
  cbn.
  destruct (St.check_float_between pc); [|reflexivity].
  cbn.
  destruct (App.progress_value (Py.of_num (Schema.fatG m)) _) as [e|pf];
    [reflexivity|].
  cbn.
  destruct (St.check_float_between pf); reflexivity.
Qed.

Lemma nutrition_outcome_zero_goal cal m g :
  View.has_zero_goal g ->
  exists e,
    snd (nutrition_outcome cal m g) = inl (St.Raised e)
    /\ existsb St.is_st_error (fst (nutrition_outcome cal m g)) = false
    /\ (App.calories g = 0 -> Py.exn_cls e = Py.ZeroDivisionError).
Proof.
  intros Hz.
  pose proof (nutrition_outcome_no_error cal m g) as Hne.
  destruct (Z.eq_dec (App.calories g) 0) as [E0|N0].
  - unfold nutrition_outcome, View.nutrition_outcome. rewrite E0.
    destruct (percent_of_goal_zero cal) as [msg ->].
    eexists. repeat split.
  - destruct (nutrition_outcome_cases cal m g)
      as [[e He] | (pct & pp & pc & pf & _ & _ & Ep & _ & Ec & _ & Ef & _)].
    + exists e. split; [exact He|]. split; [exact Hne|]. intros; contradiction.
    + exfalso. destruct Hz as [H|[H|[H|H]]].
      * contradiction.
      * rewrite H in Ep. destruct (progress_value_zero (Schema.proteinG m)) as [msg Hm].
        congruence.
      * rewrite H in Ec. destruct (progress_value_zero (Schema.carbsG m)) as [msg Hm].
        congruence.
      * rewrite H in Ef. destruct (progress_value_zero (Schema.fatG m)) as [msg Hm].
        congruence.
Qed.

(** C7.  Dividing any number by a goal of 0 raises [ZeroDivisionError],
    and nothing in the right panel guards it: for every result that
    follows the schema and every goal with a field equal to 0, the panel
    ends with an exception that nobody catches, without any [st.error];
    when it is the calorie goal that is 0, the exception is the
    [ZeroDivisionError] of the percentage. *)
Theorem zero_goal_is_an_unguarded_division :
  forall (r : Schema.AnalysisResult) (g : App.DailyGoal),
    View.has_zero_goal g ->
    (forall v : Py.num,
        exists msg,
          Py.truediv (Py.of_num v) (Py.JInt 0)
          = inl (Py.error Py.ZeroDivisionError msg))
    /\ exists view e,
         right_panel (View.panel_state (Schema.to_json r) g) =
           (View.panel_state (Schema.to_json r) g, view, inl (St.Raised e))
         /\ existsb St.is_st_error view = false
         /\ (App.calories g = 0 -> Py.exn_cls e = Py.ZeroDivisionError).
Proof.
  intros r g Hz. split; [exact truediv_by_zero|].
  destruct (nutrition_outcome_zero_goal (Schema.calories r) (Schema.macronutrients r) g Hz)
    as (e & Hs & Hv & Hc).
  exists (fst (panel_outcome r g)), e.
  rewrite right_panel_schema.
  unfold panel_outcome, View.panel_outcome. fold nutrition_outcome.
  rewrite (and_then_signal (nutrition_outcome _ _ _) _ _ Hs).
  rewrite !and_then_done. cbn [fst snd].
  split; [rewrite Hs; reflexivity|]. split; [|exact Hc].
  apply existsb_app_false; [reflexivity|].
  apply existsb_app_false; [reflexivity|exact Hv].
Qed.
End Blocks.

(** ** Missing keys *)

Section Missing.
Variable float_repr : Py.float -> string.
Variable str_repr : string -> string.
Variable chart_error : Altair.chart Py.value -> option Py.exn.

Let header_section := App.header_section float_repr str_repr.
Let nutrition_tab := App.nutrition_tab float_repr str_repr chart_error.
Let recipe_tab := App.recipe_tab float_repr str_repr.
Let alerts_tab := App.alerts_tab float_repr str_repr.
Let right_panel := App.right_panel float_repr str_repr chart_error.
Let nutrition_outcome := View.nutrition_outcome float_repr str_repr chart_error.
Let panel_outcome := View.panel_outcome float_repr str_repr chart_error.

Lemma header_missing_foodName d (s : App.session_state) :
  Py.lookup "foodName" d = None ->
  header_section (Py.JDict d) s = (s, [], View.key_error "foodName").
Proof.
  intros H. unfold header_section, App.header_section, St.bind, Py.getitem.
  rewrite H. reflexivity.
Qed.

Lemma header_missing_cuisineType d fn (s : App.session_state) :
  Py.lookup "foodName" d = Some (Py.JStr fn) ->
  Py.lookup "cuisineType" d = None ->
  header_section (Py.JDict d) s = (s, [St.markdown ("## " ++ fn)], View.key_error "cuisineType").
Proof.
  intros H1 H2. unfold header_section, App.header_section, St.bind, Py.getitem.
  rewrite H1, H2. reflexivity.
Qed.

Lemma header_missing_insightSummary d fn ct tags (s : App.session_state) :
  Py.lookup "foodName" d = Some (Py.JStr fn) ->
  Py.lookup "cuisineType" d = Some (Py.JStr ct) ->
  Py.lookup "dietaryTags" d = Some (Schema.strs tags) ->
  Py.lookup "insightSummary" d = None ->
  header_section (Py.JDict d) s =
    (s, [St.markdown ("## " ++ fn);
         St.markdown (Py.join " " (map View.badge (ct :: tags)))],
     View.key_error "insightSummary").
Proof.
  intros H1 H2 H3 H4. unfold header_section, App.header_section, St.bind, Py.getitem, Py.get.
  rewrite H1, H2, H3, H4. cbn. rewrite ?map_map. reflexivity.
Qed.

Lemma nutrition_missing_calories d g (s : App.session_state) :
  Py.lookup "calories" d = None ->
  nutrition_tab (Py.JDict d) g s = (s, [], View.key_error "calories").
Proof.
  intros H. unfold nutrition_tab, App.nutrition_tab, St.bind, Py.getitem.
  rewrite H. reflexivity.
Qed.

Lemma nutrition_missing_macronutrients d cal pct g (s : App.session_state) :
  Py.lookup "calories" d = Some (Py.of_num cal) ->
  App.percent_of_goal (Py.of_num cal) (App.calories g) = inr pct ->
  Py.lookup "macronutrients" d = None ->
  nutrition_tab (Py.JDict d) g s =
    (s, [View.energy_metric float_repr str_repr cal pct], View.key_error "macronutrients").
Proof.
  intros H1 H2 H3. unfold nutrition_tab, App.nutrition_tab.
  rewrite (getitem_found d "calories" _ H1), (getitem_missing d "macronutrients" H3).
  rewrite !bind_lift_inr, H2, bind_lift_inr. reflexivity.
Qed.

(** The three macros are read, in this order, to build the chart. *)
Lemma nutrition_missing_macro d cal pct md k g (s : App.session_state) :
  Py.lookup "calories" d = Some (Py.of_num cal) ->
  App.percent_of_goal (Py.of_num cal) (App.calories g) = inr pct ->
  Py.lookup "macronutrients" d = Some (Py.JDict md) ->
  In k ["proteinG"; "carbsG"; "fatG"] ->
  Py.lookup k md = None ->
  (forall k', In k' ["proteinG"; "carbsG"; "fatG"] -> k' <> k -> Py.lookup k' md <> None) ->
  nutrition_tab (Py.JDict d) g s =
    (s, [View.energy_metric float_repr str_repr cal pct], View.key_error k).
Proof.
  intros H1 H2 H3 Hk Hmiss Hothers. unfold nutrition_tab, App.nutrition_tab.
  rewrite (getitem_found d "calories" _ H1), (getitem_found d "macronutrients" _ H3).
  rewrite !bind_lift_inr, H2, bind_lift_inr, bind_emit, bind_lift_inr. cbv beta.
  assert (Hfound : forall k', In k' ["proteinG"; "carbsG"; "fatG"] -> k' <> k ->
                     exists v, Py.getitem (Py.JDict md) k' = inr v).
  { intros k' Hin Hne. specialize (Hothers k' Hin Hne).
    destruct (Py.lookup k' md) as [v|] eqn:E; [|congruence].
    exists v. apply getitem_found. exact E. }
  pose proof (getitem_missing md k Hmiss) as Hm.
  cbn in Hk. destruct Hk as [<-|[<-|[<-|[]]]].
  - rewrite Hm. reflexivity.
  - destruct (Hfound "proteinG") as [p Hp]; [cbn; tauto|discriminate|].
    rewrite Hp, bind_lift_inr, Hm. reflexivity.
  - destruct (Hfound "proteinG") as [p Hp]; [cbn; tauto|discriminate|].
    destruct (Hfound "carbsG") as [c Hc]; [cbn; tauto|discriminate|].
    rewrite Hp, bind_lift_inr, Hc, bind_lift_inr, Hm. reflexivity.
Qed.

Lemma recipe_missing d (s : App.session_state) :
  Py.lookup "recipe" d = None ->
  recipe_tab (Py.JDict d) s = (s, [], View.key_error "recipe").
Proof.
  intros H. unfold recipe_tab, App.recipe_tab, St.bind, Py.getitem.
  rewrite H. reflexivity.
Qed.

Lemma alerts_missing d (s : App.session_state) :
  Py.lookup "allergenAlert" d = None ->
  alerts_tab (Py.JDict d) s = (s, [], View.key_error "allergenAlert").
Proof.
  intros H. unfold alerts_tab, App.alerts_tab, St.bind, Py.getitem.
  rewrite H. reflexivity.
Qed.

(** The recipe tab reads the title, the ingredients and the
    instructions, each right before it shows it. *)
Lemma recipe_missing_nested d rc k (s : App.session_state) :
  Py.lookup "recipe" d = Some (Schema.drop_key k (Schema.recipe_to_json rc)) ->
  In k ["title"; "ingredients"; "instructions"] ->
  exists view, recipe_tab (Py.JDict d) s = (s, view, View.key_error k).
Proof.
  intros Hr Hk. destruct rc as [t ings steps].
  unfold recipe_tab, App.recipe_tab.
  rewrite (getitem_found d "recipe" _ Hr), bind_lift_inr.
  cbn in Hk. destruct Hk as [<-|[<-|[<-|[]]]].
  - eexists. reflexivity.
  - eexists. reflexivity.
  - cbn. unfold St.bind. cbn.
    rewrite (for_each_emit (fun ing => St.markdown ("- " ++ Py.str float_repr str_repr ing))).
    eexists. reflexivity.
Qed.

(** The alert tab reads the risk level first, then the advice, then
    the detected allergens. *)
Lemma alerts_missing_nested d a k (s : App.session_state) :
  Py.lookup "allergenAlert" d
    = Some (Schema.drop_key k
              (Schema.alert_with_risk
                 (Py.JStr (Schema.risk_name (Schema.riskLevel a))) a)) ->
  In k ["riskLevel"; "detected"; "advice"] ->
  exists view, alerts_tab (Py.JDict d) s = (s, view, View.key_error k).
Proof.
  intros Ha Hk. destruct a as [lvl det adv].
  unfold alerts_tab, App.alerts_tab.
  rewrite (getitem_found d "allergenAlert" _ Ha), bind_lift_inr.
  cbn in Hk. destruct Hk as [<-|[<-|[<-|[]]]].
  - eexists. reflexivity.
  - destruct lvl; eexists; reflexivity.
  - destruct lvl; eexists; reflexivity.
Qed.

Lemma panel_completes_nutrition r g :
  snd (panel_outcome r g) = inr tt ->
  snd (nutrition_outcome (Schema.calories r) (Schema.macronutrients r) g) = inr tt.
Proof.
  unfold panel_outcome, View.panel_outcome. fold nutrition_outcome.
  rewrite !and_then_done. cbn [fst snd].
  destruct (nutrition_outcome (Schema.calories r) (Schema.macronutrients r) g)
    as [nv [sig|[]]] eqn:E.
  - rewrite (and_then_signal (nv, inl sig) _ sig eq_refl). cbn. discriminate.
  - reflexivity.
Qed.

Lemma nutrition_completes_percent cal m g :
  snd (nutrition_outcome cal m g) = inr tt ->
  exists pct, App.percent_of_goal (Py.of_num cal) (App.calories g) = inr pct.
Proof.
  unfold nutrition_outcome, View.nutrition_outcome.
  destruct (App.percent_of_goal (Py.of_num cal) (App.calories g)) as [e|pct].
  - cbn. discriminate.
  - intros _. exists pct. reflexivity.
Qed.

(** A panel that completes on a result has completed its nutrition
    tab. *)
Lemma panel_completes r g :
  snd (right_panel (View.panel_state (Schema.to_json r) g)) = inr tt ->
  snd (nutrition_outcome (Schema.calories r) (Schema.macronutrients r) g) = inr tt.
Proof.
  unfold right_panel. rewrite right_panel_schema. cbn [snd].
  apply panel_completes_nutrition.
Qed.

Lemma missing_key_raises r g k :
  In k Schema.keys ->
  k <> "dietaryTags" ->
  snd (right_panel (View.panel_state (Schema.to_json r) g)) = inr tt ->
  exists view,
    right_panel (View.panel_state (Schema.without k r) g) =
      (View.panel_state (Schema.without k r) g, view, View.key_error k).
Proof.
  intros Hk Hne Hdone.
  pose proof (panel_completes r g Hdone) as Hn.
  destruct (nutrition_completes_percent _ _ _ Hn) as [pct Hp].
  assert (Hnt : forall d s,
             Py.lookup "calories" d = Some (Py.of_num (Schema.calories r)) ->
             Py.lookup "macronutrients" d
               = Some (Schema.macros_to_json (Schema.macronutrients r)) ->
             nutrition_tab (Py.JDict d) g s =
               (s, fst (nutrition_outcome (Schema.calories r) (Schema.macronutrients r) g),
                snd (nutrition_outcome (Schema.calories r) (Schema.macronutrients r) g)))
    by (intros; apply nutrition_tab_run; assumption).
  set (n := nutrition_outcome (Schema.calories r) (Schema.macronutrients r) g) in *.
  set (hd := (View.header_view (Schema.foodName r) (Schema.cuisineType r)
                (Schema.dietaryTags r) (Schema.insightSummary r), inr tt) : View.outcome).
  set (rc := (View.recipe_view (Schema.recipe r), inr tt) : View.outcome).
  set (al := (View.alerts_view (Schema.allergenAlert r), inr tt) : View.outcome).
  assert (Hhd : forall d s,
             Py.lookup "foodName" d = Some (Py.JStr (Schema.foodName r)) ->
             Py.lookup "cuisineType" d = Some (Py.JStr (Schema.cuisineType r)) ->
             Py.lookup "dietaryTags" d = Some (Schema.strs (Schema.dietaryTags r)) ->
             Py.lookup "insightSummary" d = Some (Py.JStr (Schema.insightSummary r)) ->
             header_section (Py.JDict d) s = (s, fst hd, snd hd))
    by (intros; apply header_section_run; auto).
  assert (Hrc : forall d s,
             Py.lookup "recipe" d = Some (Schema.recipe_to_json (Schema.recipe r)) ->
             recipe_tab (Py.JDict d) s = (s, fst rc, snd rc))
    by (intros; apply recipe_tab_run; assumption).
  assert (Hal : forall d s,
             Py.lookup "allergenAlert" d
             = Some (Schema.alert_with_risk (Schema.risk_to_json r) (Schema.allergenAlert r)) ->
             alerts_tab (Py.JDict d) s = (s, fst al, snd al))
    by (intros; apply alerts_tab_run; assumption).
  unfold Schema.keys in Hk. cbn in Hk.
  destruct Hk as [<-|[<-|[<-|[<-|[<-|[<-|[<-|[<-|[]]]]]]]]].
  - eexists.
    rewrite (right_panel_run float_repr str_repr chart_error (Py.remove_key "foodName" (Schema.fields r)) g _ ([], View.key_error "foodName") n rc al);
      try reflexivity; try discriminate.
    + apply Hnt; reflexivity.
    + apply Hrc; reflexivity.
    + apply Hal; reflexivity.
  - eexists.
    rewrite (right_panel_run float_repr str_repr chart_error (Py.remove_key "cuisineType" (Schema.fields r)) g _
               ([St.markdown ("## " ++ Schema.foodName r)], View.key_error "cuisineType") n rc al);
      try reflexivity; try discriminate.
    + apply Hnt; reflexivity.
    + apply Hrc; reflexivity.
    + apply Hal; reflexivity.
  - eexists.
    rewrite (right_panel_run float_repr str_repr chart_error (Py.remove_key "calories" (Schema.fields r)) g _ hd ([], View.key_error "calories") rc al);
      try reflexivity; try discriminate.
    + apply Hhd; reflexivity.
    + apply Hrc; reflexivity.
    + apply Hal; reflexivity.
  - eexists.
    rewrite (right_panel_run float_repr str_repr chart_error (Py.remove_key "macronutrients" (Schema.fields r)) g _ hd
               ([View.energy_metric float_repr str_repr (Schema.calories r) pct],
                View.key_error "macronutrients") rc al);
      try reflexivity; try discriminate.
    + apply Hhd; reflexivity.
    + apply nutrition_missing_macronutrients; try reflexivity. exact Hp.
    + apply Hrc; reflexivity.
    + apply Hal; reflexivity.
  - eexists.
    rewrite (right_panel_run float_repr str_repr chart_error (Py.remove_key "insightSummary" (Schema.fields r)) g _
               ([St.markdown ("## " ++ Schema.foodName r);
                 St.markdown (Py.join " " (map View.badge
                    (Schema.cuisineType r :: Schema.dietaryTags r)))],
                View.key_error "insightSummary") n rc al);
      try reflexivity; try discriminate.
    + apply header_missing_insightSummary; reflexivity.
    + apply Hnt; reflexivity.
    + apply Hrc; reflexivity.
    + apply Hal; reflexivity.
  - contradiction.
  - eexists.
    rewrite (right_panel_run float_repr str_repr chart_error (Py.remove_key "recipe" (Schema.fields r)) g _ hd n ([], View.key_error "recipe") al);
      try reflexivity; try discriminate.
    + subst hd. rewrite !and_then_done. rewrite (and_then_ok n _ tt Hn). reflexivity.
    + apply Hhd; reflexivity.
    + apply Hnt; reflexivity.
    + apply Hal; reflexivity.
  - eexists.
    rewrite (right_panel_run float_repr str_repr chart_error (Py.remove_key "allergenAlert" (Schema.fields r)) g _ hd n rc ([], View.key_error "allergenAlert"));
      try reflexivity; try discriminate.
    + subst hd rc. rewrite !and_then_done. rewrite (and_then_ok n _ tt Hn). reflexivity.
    + apply Hhd; reflexivity.
    + apply Hnt; reflexivity.
    + apply Hrc; reflexivity.
Qed.

Lemma missing_nested_key_raises r g parent k :
  In (parent, k) Schema.nested_keys ->
  snd (right_panel (View.panel_state (Schema.to_json r) g)) = inr tt ->
  exists view,
    right_panel (View.panel_state (Schema.without_nested parent k r) g) =
      (View.panel_state (Schema.without_nested parent k r) g, view, View.key_error k).
Proof.
  intros Hk Hdone.
  pose proof (panel_completes r g Hdone) as Hn.
  destruct (nutrition_completes_percent _ _ _ Hn) as [pct Hp].
  set (n := nutrition_outcome (Schema.calories r) (Schema.macronutrients r) g) in *.
  set (hd := (View.header_view (Schema.foodName r) (Schema.cuisineType r)
                (Schema.dietaryTags r) (Schema.insightSummary r), inr tt) : View.outcome).
  set (rc := (View.recipe_view (Schema.recipe r), inr tt) : View.outcome).
  set (al := (View.alerts_view (Schema.allergenAlert r), inr tt) : View.outcome).
  assert (Hhd : forall d s,
             Py.lookup "foodName" d = Some (Py.JStr (Schema.foodName r)) ->
             Py.lookup "cuisineType" d = Some (Py.JStr (Schema.cuisineType r)) ->
             Py.lookup "dietaryTags" d = Some (Schema.strs (Schema.dietaryTags r)) ->
             Py.lookup "insightSummary" d = Some (Py.JStr (Schema.insightSummary r)) ->
             header_section (Py.JDict d) s = (s, fst hd, snd hd))
    by (intros; apply header_section_run; auto).
  assert (Hnt : forall d s,
             Py.lookup "calories" d = Some (Py.of_num (Schema.calories r)) ->
             Py.lookup "macronutrients" d
               = Some (Schema.macros_to_json (Schema.macronutrients r)) ->
             nutrition_tab (Py.JDict d) g s = (s, fst n, snd n))
    by (intros; apply nutrition_tab_run; assumption).
  assert (Hrc : forall d s,
             Py.lookup "recipe" d = Some (Schema.recipe_to_json (Schema.recipe r)) ->
             recipe_tab (Py.JDict d) s = (s, fst rc, snd rc))
    by (intros; apply recipe_tab_run; assumption).
  assert (Hal : forall d s,
             Py.lookup "allergenAlert" d
             = Some (Schema.alert_with_risk (Schema.risk_to_json r) (Schema.allergenAlert r)) ->
             alerts_tab (Py.JDict d) s = (s, fst al, snd al))
    by (intros; apply alerts_tab_run; assumption).
  assert (Hmacro : forall k s,
             In k ["proteinG"; "carbsG"; "fatG"] ->
             nutrition_tab (Schema.without_nested "macronutrients" k r) g s =
               (s, [View.energy_metric float_repr str_repr (Schema.calories r) pct],
                View.key_error k)).
  { intros k0 s Hin.
    apply (nutrition_missing_macro _ (Schema.calories r) pct
             (Py.remove_key k0
                [("proteinG", Py.of_num (Schema.proteinG (Schema.macronutrients r)));
                 ("carbsG", Py.of_num (Schema.carbsG (Schema.macronutrients r)));
                 ("fatG", Py.of_num (Schema.fatG (Schema.macronutrients r)))]));
      try reflexivity; try assumption.
    - cbn in Hin. destruct Hin as [<-|[<-|[<-|[]]]]; reflexivity.
    - intros k' Hin' Hne. cbn in Hin, Hin'.
      destruct Hin as [<-|[<-|[<-|[]]]]; destruct Hin' as [<-|[<-|[<-|[]]]];
        try congruence; discriminate. }
  assert (Hrecipe : forall k s,
             In k ["title"; "ingredients"; "instructions"] ->
             exists view,
               recipe_tab (Schema.without_nested "recipe" k r) s =
                 (s, view, View.key_error k)).
  { intros k0 s Hin.
    apply (recipe_missing_nested _ (Schema.recipe r)); [reflexivity|exact Hin]. }
  assert (Halert : forall k s,
             In k ["riskLevel"; "detected"; "advice"] ->
             exists view,
               alerts_tab (Schema.without_nested "allergenAlert" k r) s =
                 (s, view, View.key_error k)).
  { intros k0 s Hin.
    apply (alerts_missing_nested _ (Schema.allergenAlert r)); [reflexivity|exact Hin]. }
  unfold Schema.nested_keys in Hk. cbn in Hk.
  destruct Hk as [E|[E|[E|[E|[E|[E|[E|[E|[E|[]]]]]]]]]]; injection E as <- <-.
  1-3: match goal with
       | |- context [Schema.without_nested "macronutrients" ?k _] =>
           eexists;
           rewrite (right_panel_run float_repr str_repr chart_error
                      (Schema.adjust "macronutrients" (Schema.drop_key k) (Schema.fields r))
                      g _ hd
                      ([View.energy_metric float_repr str_repr (Schema.calories r) pct],
                       View.key_error k) rc al);
           [reflexivity|reflexivity|reflexivity|discriminate
           |apply Hhd; reflexivity
           |apply (Hmacro k); cbn; tauto
           |apply Hrc; reflexivity
           |apply Hal; reflexivity]
       end.
  1-3: match goal with
       | |- context [Schema.without_nested "recipe" ?k _] =>
           destruct (Hrecipe k (View.panel_state (Schema.without_nested "recipe" k r) g)
                       ltac:(cbn; tauto)) as [view Hv];
           eexists;
           rewrite (right_panel_run float_repr str_repr chart_error
                      (Schema.adjust "recipe" (Schema.drop_key k) (Schema.fields r)) g _ hd n
                      (view, View.key_error k) al);
           [subst hd; rewrite !and_then_done; rewrite (and_then_ok n _ tt Hn); reflexivity
           |reflexivity|reflexivity|discriminate
           |apply Hhd; reflexivity
           |apply Hnt; reflexivity
           |exact Hv
           |apply Hal; reflexivity]
       end.
  1-3: match goal with
       | |- context [Schema.without_nested "allergenAlert" ?k _] =>
           destruct (Halert k (View.panel_state (Schema.without_nested "allergenAlert" k r) g)
                       ltac:(cbn; tauto)) as [view Hv];
           eexists;
           rewrite (right_panel_run float_repr str_repr chart_error
                      (Schema.adjust "allergenAlert" (Schema.drop_key k) (Schema.fields r)) g _
                      hd n rc (view, View.key_error k));
           [subst hd rc; rewrite !and_then_done; rewrite (and_then_ok n _ tt Hn); reflexivity
           |reflexivity|reflexivity|discriminate
           |apply Hhd; reflexivity
           |apply Hnt; reflexivity
           |apply Hrc; reflexivity
           |exact Hv]
       end.
Qed.
End Missing.

(** ** Claims about the right panel *)

Section PanelClaims.
Variable float_repr : Py.float -> string.
Variable str_repr : string -> string.
Variable json_decode : string -> string + Py.value.
Variable Image : Type.
Variable image_mode : Image -> PIL.mode.
Variable jpeg_save : Image -> string + list byte.
Variable post : Requests.Request -> Requests.post_outcome.
Variable chart_error : Altair.chart Py.value -> option Py.exn.

Let script := App.script float_repr str_repr json_decode image_mode jpeg_save post chart_error.
Let header_section := App.header_section float_repr str_repr.
Let nutrition_tab := App.nutrition_tab float_repr str_repr chart_error.
Let right_panel := App.right_panel float_repr str_repr chart_error.
Let nutrition_outcome := View.nutrition_outcome float_repr str_repr chart_error.
Let panel_outcome := View.panel_outcome float_repr str_repr chart_error.
Let alerts_tab := App.alerts_tab float_repr str_repr.
Let num_str := View.num_str float_repr str_repr.

(** An idle run shows its chrome and then whatever the right panel
    does; an exception of the panel is the outcome of the run. *)
Lemma script_idle_run (i : App.inputs Image) data g :
  View.idle i ->
  existsb St.is_st_error (View.idle_chrome g (App.captured i)) = false
  /\ script i (View.panel_state data g) =
       (let '(s2, w2, r) := right_panel (View.panel_state data g) in
        (s2, (View.idle_chrome g (App.captured i) ++ w2)%list, r)).
Proof.
  intros ((entries & key & Hs & Hk) & He & Hc).
  destruct i as [sec ed [m cam up clicked]]. cbn in Hs, He, Hc. subst sec ed clicked.
  destruct g as [gc gp gb gf].
  unfold script, App.script, App.load_secrets, St.try_except, St.bind at 1 2.
  cbn. rewrite Hk. cbn.
  fold right_panel.
  destruct m, cam as [img|], up as [img'|]; cbn;
    destruct (right_panel _) as [[s2 w2] res]; split; reflexivity.
Qed.

(** C9.  With an empty [dietaryTags] the header shows the cuisine type
    as the only badge and completes.  A result without the key
    [dietaryTags] renders the same way, the empty list being the default
    of [data.get].  No other key has a default, at the top level or in
    the three nested objects: when one is missing from a result on which
    the panel completes, the panel ends with the [KeyError] of that
    key. *)
Theorem dietary_tags_is_the_only_default :
  forall (r : Schema.AnalysisResult) (g : App.DailyGoal),
    (forall s,
        Schema.dietaryTags r = [] ->
        header_section (Schema.to_json r) s =
          (s, [St.markdown ("## " ++ Schema.foodName r);
               St.markdown (View.badge (Schema.cuisineType r));
               St.caption ("📝 " ++ Schema.insightSummary r);
               St.divider],
           inr tt))
    /\ (forall s,
           header_section (Schema.without "dietaryTags" r) s =
             (s, View.header_view (Schema.foodName r) (Schema.cuisineType r) []
                   (Schema.insightSummary r),
              inr tt))
    /\ (forall k,
           In k Schema.keys ->
           k <> "dietaryTags" ->
           snd (right_panel (View.panel_state (Schema.to_json r) g)) = inr tt ->
           exists view,
             right_panel (View.panel_state (Schema.without k r) g) =
               (View.panel_state (Schema.without k r) g, view,
                inl (St.Raised (Py.Exn Py.KeyError (Py.JStr k)))))
    /\ (forall parent k,
           In (parent, k) Schema.nested_keys ->
           snd (right_panel (View.panel_state (Schema.to_json r) g)) = inr tt ->
           exists view,
             right_panel (View.panel_state (Schema.without_nested parent k r) g) =
               (View.panel_state (Schema.without_nested parent k r) g, view,
                inl (St.Raised (Py.Exn Py.KeyError (Py.JStr k))))).
Proof.
  intros r g. split; [|split; [|split]].
  - intros s Ht.
    unfold header_section, Schema.to_json.
    rewrite (header_section_run float_repr str_repr (Schema.fields r)
               (Schema.foodName r) (Schema.cuisineType r) [] (Schema.insightSummary r));
      try reflexivity.
    left. cbn. rewrite Ht. reflexivity.
  - intros s. unfold header_section, Schema.without.
    apply header_section_run; try reflexivity.
    right. split; reflexivity.
  - intros k Hk Hne Hdone.
    exact (missing_key_raises float_repr str_repr chart_error r g k Hk Hne Hdone).
  - intros parent k Hk Hdone.
    exact (missing_nested_key_raises float_repr str_repr chart_error r g parent k Hk Hdone).
Qed.

Lemma nutrition_outcome_shown cal m g pct pp pc pf :
  App.percent_of_goal (Py.of_num cal) (App.calories g) = inr pct ->
  chart_error (View.donut m) = None ->
  App.progress_value (Py.of_num (Schema.proteinG m)) (App.proteinG g) = inr pp ->
  App.progress_value (Py.of_num (Schema.carbsG m)) (App.carbsG g) = inr pc ->
  App.progress_value (Py.of_num (Schema.fatG m)) (App.fatG g) = inr pf ->
  St.check_float_between pp = true ->
  St.check_float_between pc = true ->
  St.check_float_between pf = true ->
  nutrition_outcome cal m g =
    (View.nutrition_view float_repr str_repr cal pct m pp pc pf, inr tt).
Proof.
  intros Hpct Hch Hp Hc Hf Cp Cc Cf.
  unfold nutrition_outcome, View.nutrition_outcome, View.chart_outcome,
    View.macro_card_outcome, View.progress_outcome.
  rewrite Hpct, Hch, Hp, Hc, Hf, Cp, Cc, Cf. reflexivity.
Qed.

(** C2, as amended.  The nutrition tab computes a percentage of goal for
    the calories only.  Let [pct] be the calories divided by the calorie
    goal, times 100, rounded to the nearest integer with ties to even,
    and let each macro have its ratio to its goal cut at 1.0.  When the
    chart can be drawn and Streamlit accepts the three ratios, the tab is
    exactly: the Energy metric whose delta reads [pct]% of Daily Goal,
    the chart, the heading, and for each macro a metric showing the grams
    with no delta followed by a progress bar at the cut ratio.  600
    against 2000 gives 30, and 20 against 65 gives 31. *)
Theorem energy_metric_shows_percentage_of_goal :
  forall (r : Schema.AnalysisResult) (g : App.DailyGoal) (s : App.session_state)
         (pct : Z) (protein carbs fat : Py.float),
    View.percentage (Py.of_num (Schema.calories r)) (App.calories g) pct ->
    View.clamped_ratio
      (Py.of_num (Schema.proteinG (Schema.macronutrients r))) (App.proteinG g) protein ->
    View.clamped_ratio
      (Py.of_num (Schema.carbsG (Schema.macronutrients r))) (App.carbsG g) carbs ->
    View.clamped_ratio
      (Py.of_num (Schema.fatG (Schema.macronutrients r))) (App.fatG g) fat ->
    chart_error (View.donut (Schema.macronutrients r)) = None ->
    St.check_float_between protein = true ->
    St.check_float_between carbs = true ->
    St.check_float_between fat = true ->
    nutrition_tab (Schema.to_json r) g s =
      (s,
       [St.metric "Energy" (num_str (Schema.calories r) ++ " kcal")
          (Some (Py.string_of_Z pct ++ "% of Daily Goal")) false;
        St.altair_chart (View.donut (Schema.macronutrients r));
        St.markdown "#### Macro Breakdown";
        St.metric "Protein" (num_str (Schema.proteinG (Schema.macronutrients r)) ++ "g")
          None true;
        St.progress protein;
        St.metric "Carbs" (num_str (Schema.carbsG (Schema.macronutrients r)) ++ "g")
          None true;
        St.progress carbs;
        St.metric "Fat" (num_str (Schema.fatG (Schema.macronutrients r)) ++ "g")
          None true;
        St.progress fat],
       inr tt)
    /\ App.percent_of_goal (Py.JInt 600) 2000 = inr 30
    /\ App.percent_of_goal (Py.JInt 20) 65 = inr 31.
Proof.
  intros r g s pct protein carbs fat Hpct Hp Hc Hf Hch Cp Cc Cf.
  split; [|split; reflexivity].
  apply percent_of_goal_spec in Hpct.
  apply progress_value_spec in Hp, Hc, Hf.
  unfold nutrition_tab, Schema.to_json.
  rewrite (nutrition_tab_run float_repr str_repr chart_error (Schema.fields r)
             (Schema.calories r) (Schema.macronutrients r)) by reflexivity.
  fold nutrition_outcome.
  rewrite (nutrition_outcome_shown _ _ _ pct protein carbs fat) by assumption.
  reflexivity.
Qed.

Lemma recipe_view_no_error rc :
  existsb St.is_st_error (View.recipe_view rc) = false.
Proof.
  unfold View.recipe_view. cbn. rewrite existsb_app. cbn.
  rewrite !existsb_map_not_error by reflexivity. reflexivity.
Qed.

Lemma right_panel_invalid_risk r g v :
  ~ View.valid_risk v ->
  snd (right_panel (View.panel_state (Schema.to_json r) g)) = inr tt ->
  exists view,
    right_panel (View.panel_state (Py.JDict (Schema.fields_with_risk v r)) g) =
      (View.panel_state (Py.JDict (Schema.fields_with_risk v r)) g, view,
       inl (St.Raised (View.risk_lookup_error v)))
    /\ existsb St.is_st_error view = false.
Proof.
  intros Hv Hdone.
  pose proof (panel_completes float_repr str_repr chart_error r g Hdone) as Hn.
  fold nutrition_outcome in Hn.
  pose proof (nutrition_outcome_no_error float_repr str_repr chart_error
                (Schema.calories r) (Schema.macronutrients r) g)
    as Hno.
  fold nutrition_outcome in Hno.
  set (n := nutrition_outcome (Schema.calories r) (Schema.macronutrients r) g) in *.
  exists (View.header_view (Schema.foodName r) (Schema.cuisineType r)
            (Schema.dietaryTags r) (Schema.insightSummary r)
          ++ [View.tab_bar] ++ fst n ++ View.recipe_view (Schema.recipe r) ++ [])%list.
  split.
  - rewrite (right_panel_run float_repr str_repr chart_error
               (Schema.fields_with_risk v r) g _
               (View.header_view (Schema.foodName r) (Schema.cuisineType r)
                  (Schema.dietaryTags r) (Schema.insightSummary r), inr tt)
               n
               (View.recipe_view (Schema.recipe r), inr tt)
               ([], inl (St.Raised (View.risk_lookup_error v))));
      try reflexivity; try discriminate.
    + rewrite !and_then_done. rewrite (and_then_ok n _ tt Hn). reflexivity.
    + apply header_section_run; try reflexivity. left. reflexivity.
    + apply nutrition_tab_run; reflexivity.
    + apply recipe_tab_run; reflexivity.
    + apply (alerts_tab_invalid_risk float_repr str_repr _ (Schema.allergenAlert r)).
      * reflexivity.
      * exact Hv.
  - apply existsb_app_false; [reflexivity|].
    apply existsb_app_false; [reflexivity|].
    apply existsb_app_false; [exact Hno|].
    rewrite app_nil_r. apply recipe_view_no_error.
Qed.

(** C10.  Let the store hold a result that follows the schema except
    that its risk level is a value other than the strings High, Medium
    and Low.  The alert tab then ends at [risk_color[...]], before
    showing anything, with an exception: the [KeyError] of that value, or
    a [TypeError] when the value is a list or a dict, which cannot be
    hashed.  Nothing catches it.  When the panel completes with the
    result's own risk level, so that the alert tab is reached, the right
    panel ends with this exception and has emitted no [st.error], and an
    idle run of the whole script ends with it as its outcome, the
    analysis block and its handler not being entered. *)
Theorem invalid_risk_level_is_not_caught :
  forall (r : Schema.AnalysisResult) (g : App.DailyGoal) (v : Py.value),
    ~ View.valid_risk v ->
    (forall s,
        alerts_tab (Py.JDict (Schema.fields_with_risk v r)) s =
          (s, [], inl (St.Raised (View.risk_lookup_error v))))
    /\ (snd (right_panel (View.panel_state (Schema.to_json r) g)) = inr tt ->
        (exists view,
            right_panel (View.panel_state (Py.JDict (Schema.fields_with_risk v r)) g) =
              (View.panel_state (Py.JDict (Schema.fields_with_risk v r)) g, view,
               inl (St.Raised (View.risk_lookup_error v)))
            /\ existsb St.is_st_error view = false)
        /\ (forall i : App.inputs Image,
               View.idle i ->
               exists view,
                 script i (View.panel_state (Py.JDict (Schema.fields_with_risk v r)) g) =
                   (View.panel_state (Py.JDict (Schema.fields_with_risk v r)) g, view,
                    inl (St.Raised (View.risk_lookup_error v)))
                 /\ existsb St.is_st_error view = false)).
Proof.
  intros r g v Hv. split.
  - intros s.
    apply (alerts_tab_invalid_risk float_repr str_repr _ (Schema.allergenAlert r));
      [reflexivity|exact Hv].
  - intros Hdone.
    destruct (right_panel_invalid_risk r g v Hv Hdone) as (view & Hp & Hne).
    split.
    + exists view. split; assumption.
    + intros i Hi.
      destruct (script_idle_run i (Py.JDict (Schema.fields_with_risk v r)) g Hi)
        as [Hc Hs].
      exists (View.idle_chrome g (App.captured i) ++ view)%list. split.
      * rewrite Hs, Hp. reflexivity.
      * apply existsb_app_false; assumption.
Qed.
End PanelClaims.

(** ** The encoder *)


Section Base64Facts.
Local Open Scope N_scope.






End Base64Facts.


Section Encoder.
Variable float_repr : Py.float -> string.
Variable str_repr : string -> string.
Variable json_decode : string -> string + Py.value.
Variable Image : Type.
Variable image_mode : Image -> PIL.mode.
Variable jpeg_save : Image -> string + list byte.
Variable post : Requests.Request -> Requests.post_outcome.

Let image_to_base64 := App.image_to_base64 image_mode jpeg_save.
Let decode_nutrition :=
  App.decode_nutrition float_repr str_repr json_decode image_mode jpeg_save post.
Let encoder_failure_view := View.encoder_failure_view float_repr str_repr.



End Encoder.

(** ** The donut chart *)

Section ChartFacts.
Context {V : Type}.
Variable geb : V -> V -> bool.
Variable comparable : V -> Prop.
Hypothesis geb_total :
  forall x y, comparable x -> comparable y -> geb x y = true \/ geb y x = true.

Let in_order := Altair.in_order geb.






End ChartFacts.








(** ** The properties on the sample session *)

Lemma startup_halts_without_api_key_witness :
  View.api_key_absent (App.secrets Sample.unconfigured)
  /\ exists err,
       St.page (Sample.script Sample.post_500 Sample.unconfigured Sample.empty_session)
       = [St.Widget App.page_config; err]
       /\ St.is_error_element err = true.
Proof.
  assert (H : View.api_key_absent (App.secrets Sample.unconfigured)) by exact I.
  split; [exact H|].
  exact (proj2 (startup_halts_without_api_key Sample.float_repr Sample.str_repr
                  Sample.json_decode Sample.picture Sample.image_mode Sample.jpeg_save
                  Sample.post_500 Sample.chart_error
                  Sample.unconfigured Sample.empty_session H)).
Defined.

Lemma failed_call_surfaces_error_and_keeps_store_witness :
  Sample.image_to_base64 Sample.Meal = inr "/9j/2Q=="
  /\ Sample.post_500
       (App.gemini_request Sample.float_repr Sample.str_repr (Py.JStr "k") "/9j/2Q==")
     = Requests.PostResponse Sample.server_error
  /\ View.failed_exchange Sample.json_decode Sample.server_error
  /\ exists e,
       Sample.decode_nutrition Sample.post_500 (Py.JStr "k") Sample.Meal
         Sample.stored_session
       = (Sample.stored_session,
          View.failure_view Sample.float_repr Sample.str_repr e, inr tt)
       /\ exists rest, Sample.exn_str e = "500" ++ rest.
Proof.
  assert (H1 : Sample.image_to_base64 Sample.Meal = inr "/9j/2Q==") by reflexivity.
  assert (H2 : Sample.post_500
                 (App.gemini_request Sample.float_repr Sample.str_repr (Py.JStr "k")
                    "/9j/2Q==")
               = Requests.PostResponse Sample.server_error) by reflexivity.
  assert (H3 : View.failed_exchange Sample.json_decode Sample.server_error)
    by (apply View.http_failure; cbn; lia).
  split; [exact H1|]. split; [exact H2|]. split; [exact H3|].
  destruct (failed_call_surfaces_error_and_keeps_store Sample.float_repr Sample.str_repr
              Sample.json_decode Sample.picture Sample.image_mode Sample.jpeg_save
              Sample.post_500
              (Py.JStr "k") Sample.Meal "/9j/2Q==" Sample.server_error
              Sample.stored_session H1 H2 H3)
    as (e & _ & Hrun & Hcode & _).
  exists e. split; [exact Hrun|].
  apply Hcode. cbn. lia.
Defined.

Lemma undecodable_text_is_a_failed_exchange :
  View.failed_exchange Sample.json_decode Sample.bad_text.
Proof.
  apply (View.parse_failure Sample.json_decode Sample.bad_text "not json"
           "Expecting value: line 1 column 1 (char 0)"); reflexivity.
Qed.

(** A status that is not a success and that [raise_for_status] lets
    through: the body is decoded, the store is overwritten and no error
    is shown. *)
Lemma a_304_response_overwrites_the_store :
  Requests.status_code Sample.not_modified = 304
  /\ Requests.raise_for_status Sample.not_modified = inr tt
  /\ Sample.decode_nutrition Sample.post_304 (Py.JStr "k") Sample.Meal Sample.stored_session
     = ({| App.analysis := Some Sample.toast;
           App.daily_goal := Some App.default_goal |},
        View.success_view, inr tt)
  /\ existsb St.is_st_error View.success_view = false
  /\ Some Sample.toast <> App.analysis Sample.stored_session.
Proof.
  split; [reflexivity|]. split; [reflexivity|]. split; [reflexivity|].
  split; [reflexivity|]. discriminate.
Qed.

Lemma energy_metric_shows_percentage_of_goal_witness :
  View.percentage (Py.of_num (Schema.calories Sample.meal)) (App.calories App.default_goal) 30
  /\ View.clamped_ratio (Py.JInt 150) 120 Py.one
  /\ St.check_float_between Py.one = true
  /\ Sample.nutrition_tab (Schema.to_json Sample.meal) App.default_goal Sample.stored_session
     = (Sample.stored_session,
        [St.metric "Energy" "600 kcal" (Some "30% of Daily Goal") false;
         St.altair_chart (View.donut (Schema.macronutrients Sample.meal));
         St.markdown "#### Macro Breakdown";
         St.metric "Protein" "150g" None true;
         St.progress Py.one;
         St.metric "Carbs" "50g" None true;
         St.progress (S754_finite false 7205759403792794 (-55));
         St.metric "Fat" "20g" None true;
         St.progress (S754_finite false 5542891849071380 (-54))],
        inr tt).
Proof.
  assert (Hpct : View.percentage (Py.of_num (Schema.calories Sample.meal))
                   (App.calories App.default_goal) 30).
  { exists (S754_finite false 5404319552844595 (-54)). split; [reflexivity|].
    vm_compute. split; [discriminate|intros _; reflexivity]. }
  assert (Hp : View.clamped_ratio (Py.JInt 150) 120 Py.one).
  { exists (S754_finite false 5629499534213120 (-52)). split; reflexivity. }
  assert (Hc : View.clamped_ratio (Py.JInt 50) 250 (S754_finite false 7205759403792794 (-55))).
  { exists (S754_finite false 7205759403792794 (-55)). split; reflexivity. }
  assert (Hf : View.clamped_ratio (Py.JInt 20) 65 (S754_finite false 5542891849071380 (-54))).
  { exists (S754_finite false 5542891849071380 (-54)). split; reflexivity. }
  assert (C1 : St.check_float_between Py.one = true) by reflexivity.
  split; [exact Hpct|]. split; [exact Hp|]. split; [exact C1|].
  exact (proj1 (energy_metric_shows_percentage_of_goal Sample.float_repr Sample.str_repr
                  Sample.chart_error Sample.meal App.default_goal Sample.stored_session
                  30 Py.one (S754_finite false 7205759403792794 (-55))
                  (S754_finite false 5542891849071380 (-54))
                  Hpct Hp Hc Hf eq_refl C1 eq_refl eq_refl)).
Defined.

Lemma macro_cards_show_no_percentage :
  View.metrics (Sample.right_panel Sample.stored_session)
  = [St.metric "Energy" "600 kcal" (Some "30% of Daily Goal") false;
     St.metric "Protein" "150g" None true;
     St.metric "Carbs" "50g" None true;
     St.metric "Fat" "20g" None true]
  /\ App.percent_of_goal (Py.JInt 50) (App.carbsG App.default_goal) = inr 20.
Proof. split; reflexivity. Qed.

Lemma zero_goal_is_an_unguarded_division_witness :
  View.has_zero_goal Sample.no_calorie_goal
  /\ exists view e,
       Sample.right_panel
         (View.panel_state (Schema.to_json Sample.meal) Sample.no_calorie_goal)
       = (View.panel_state (Schema.to_json Sample.meal) Sample.no_calorie_goal,
          view, inl (St.Raised e))
       /\ existsb St.is_st_error view = false
       /\ Py.exn_cls e = Py.ZeroDivisionError.
Proof.
  assert (H : View.has_zero_goal Sample.no_calorie_goal) by (left; reflexivity).
  split; [exact H|].
  destruct (zero_goal_is_an_unguarded_division Sample.float_repr Sample.str_repr
              Sample.chart_error Sample.meal Sample.no_calorie_goal H)
    as (_ & view & e & Hrun & Hview & Hcls).
  exists view, e. split; [exact Hrun|]. split; [exact Hview|].
  apply Hcls. reflexivity.
Defined.





Lemma sample_panel_completes :
  snd (Sample.right_panel (View.panel_state (Schema.to_json Sample.meal) App.default_goal))
  = inr tt.
Proof. reflexivity. Qed.

Lemma dietary_tags_is_the_only_default_witness :
  Schema.dietaryTags Sample.meal = []
  /\ snd (Sample.right_panel (View.panel_state (Schema.to_json Sample.meal) App.default_goal))
     = inr tt
  /\ Sample.header_section (Schema.to_json Sample.meal) Sample.stored_session
     = (Sample.stored_session,
        [St.markdown "## Pad Thai"; St.markdown "`Thai`";
         St.caption "📝 A balanced plate."; St.divider],
        inr tt)
  /\ (exists view,
        Sample.right_panel
          (View.panel_state (Schema.without "recipe" Sample.meal) App.default_goal)
        = (View.panel_state (Schema.without "recipe" Sample.meal) App.default_goal, view,
           inl (St.Raised (Py.Exn Py.KeyError (Py.JStr "recipe")))))
  /\ (exists view,
        Sample.right_panel
          (View.panel_state (Schema.without_nested "recipe" "title" Sample.meal)
             App.default_goal)
        = (View.panel_state (Schema.without_nested "recipe" "title" Sample.meal)
             App.default_goal, view,
           inl (St.Raised (Py.Exn Py.KeyError (Py.JStr "title"))))).
Proof.
  assert (Ht : Schema.dietaryTags Sample.meal = []) by reflexivity.
  pose proof sample_panel_completes as Hd.
  split; [exact Ht|]. split; [exact Hd|].
  destruct (dietary_tags_is_the_only_default Sample.float_repr Sample.str_repr
              Sample.chart_error Sample.meal App.default_goal) as (Hh & _ & Hk & Hn).
  split; [|split].
  - exact (Hh Sample.stored_session Ht).
  - apply (Hk "recipe"); [cbn; tauto|discriminate|exact Hd].
  - apply (Hn "recipe" "title"); [cbn; tauto|exact Hd].
Defined.

Lemma severe_is_not_a_risk_level : ~ View.valid_risk (Py.JStr "Severe").
Proof. intros [H|[H|H]]; discriminate. Qed.

Lemma idle_inputs_are_idle : View.idle Sample.idle_inputs.
Proof.
  split; [|split; reflexivity].
  exists [("GEMINI_API_KEY", Py.JStr "k")], (Py.JStr "k"). split; reflexivity.
Qed.

Lemma invalid_risk_level_is_not_caught_witness :
  ~ View.valid_risk (Py.JStr "Severe")
  /\ snd (Sample.right_panel (View.panel_state (Schema.to_json Sample.meal) App.default_goal))
     = inr tt
  /\ View.idle Sample.idle_inputs
  /\ exists view,
       Sample.script Sample.post_500 Sample.idle_inputs
         (View.panel_state
            (Py.JDict (Schema.fields_with_risk (Py.JStr "Severe") Sample.meal))
            App.default_goal)
       = (View.panel_state
            (Py.JDict (Schema.fields_with_risk (Py.JStr "Severe") Sample.meal))
            App.default_goal,
          view, inl (St.Raised (Py.Exn Py.KeyError (Py.JStr "Severe"))))
       /\ existsb St.is_st_error view = false.
Proof.
  pose proof sample_panel_completes as Hd.
  split; [exact severe_is_not_a_risk_level|]. split; [exact Hd|].
  split; [exact idle_inputs_are_idle|].
  destruct (invalid_risk_level_is_not_caught Sample.float_repr Sample.str_repr
              Sample.json_decode Sample.picture Sample.image_mode Sample.jpeg_save
              Sample.post_500 Sample.chart_error
              Sample.meal App.default_goal (Py.JStr "Severe")
              severe_is_not_a_risk_level) as (_ & Hpanel).
  destruct (Hpanel Hd) as (_ & Hscript).
  exact (Hscript Sample.idle_inputs idle_inputs_are_idle).
Defined.

Example allergen_example :
  App.alerts_tab Sample.float_repr Sample.str_repr (Schema.to_json Sample.meal)
    Sample.stored_session
  = (Sample.stored_session,
     [St.markdown "**Risk Level:** :orange[Medium]";
      St.warning (Py.JStr "Avoid");
      St.write "Potential Allergens Detected:";
      St.markdown "- 🔴 **peanuts**"],
     inr tt).
Proof. reflexivity. Qed.

Lemma progress_is_not_clamped_for_a_negative_goal :
  Py.gt_int (Py.NInt 150) (-120) = true
  /\ App.progress_value (Py.JInt 150) (-120)
     = inr (S754_finite true 5629499534213120 (-52))
  /\ App.progress_value (Py.JInt 150) (-120) <> inr Py.one.
Proof. split; [reflexivity|split; [reflexivity|discriminate]]. Qed.
